(** * Bitcoin dataset scripts: collector and reporter

    A shallow embedding of [scripts/bitcoinDataCollector.py] and
    [scripts/bitcoinVisualization.py], followed by the properties that the
    specification states about them.

    Conventions of the embedding.
    - A Python call that can raise returns a [result]; the exceptions the
      two scripts can meet are the constructors of [exn].  Code that reads
      or writes files, the clock or the network runs in the monad [M] over
      an explicit [world]; an exception keeps the effects made before it.
    - JSON numbers are decimal literals and are kept as exact decimals
      ([dec], mantissa and scale); means are rationals.  A float64 column is
      thereby idealised: binary representation error, NaN, overflow of
      int64 and the exponent form of [repr] are outside the model, and the
      difference between an int64 and a float64 column of whole numbers is
      not kept.
    - A processed DataFrame is the list of its rows, in index order; a
      frame read from a file is the list of its named columns.
    - pandas is modelled on the operations the scripts call, after their
      documented behaviour: [merge] is the inner join on the key column
      that keeps the order of the left frame, [Series.round] rounds half to
      even and raises on a column of objects, [to_datetime(unit='ms')]
      raises outside the datetime64[ns] range, [to_csv] and [read_csv] are
      text.  [read_csv] covers plain files (no quoting, no missing cells)
      and plain number literals; [to_datetime] on text checks the shape of
      a timestamp, not the ranges of its fields.
    - [json.dumps] and plotly's renderers are parameters of the sections
      that use them.  Console output is not modelled. *)

From Stdlib Require Import ZArith QArith Qabs List String Ascii Bool Lia.
From Stdlib Require Import Sorting.Sorted.
From stdpp Require Import gmap strings.
Import ListNotations.

Local Open Scope Z_scope.

(** ** Python results *)

Inductive exn : Type :=
| TypeError
| IndexError
| KeyError (key : string)
| ValueError
| OutOfBoundsDatetime
| FileNotFoundError (path : string)
| EmptyDataError
| ParserError
| ConnectionError
| JSONDecodeError
| Exception (msg : string).

Inductive result (A : Type) : Type :=
| Ok (a : A)
| Raise (e : exn).
Arguments Ok {A} a.
Arguments Raise {A} e.

Definition bind {A B} (r : result A) (k : A -> result B) : result B :=
  match r with
  | Ok a => k a
  | Raise e => Raise e
  end.

Notation "'let*' x ':=' r 'in' k" := (bind r (fun x => k))
  (at level 10, x name, r at level 100, k at level 200, only parsing).

Fixpoint mapM {A B} (f : A -> result B) (l : list A) : result (list B) :=
  match l with
  | [] => Ok []
  | a :: l' => let* b := f a in let* bs := mapM f l' in Ok (b :: bs)
  end.

(** ** Decimal numbers and rounding *)

Definition pow10 (n : nat) : Z := 10 ^ Z.of_nat n.

(** [Dec m s] is the number [m / 10^s]. *)
Record dec : Type := Dec { mant : Z; scale : nat }.

Definition dec_to_Q (d : dec) : Q := mant d # Z.to_pos (pow10 (scale d)).

Definition dec_of_Z (z : Z) : dec := Dec z 0.

(** Nearest integer to [n / d] for [0 < d], ties to the even neighbour. *)
Definition round_half_even_div (n d : Z) : Z :=
  let q := n / d in
  let r := n mod d in
  match 2 * r ?= d with
  | Lt => q
  | Gt => q + 1
  | Eq => if Z.even q then q else q + 1
  end.

(** [x.round(decimals)] on one number. *)
Definition round_dec (decimals : nat) (x : dec) : dec :=
  Dec (round_half_even_div (mant x * pow10 decimals) (pow10 (scale x))) decimals.

(** The C cast of a float to int64 truncates toward zero. *)
Definition int_of_dec (x : dec) : Z := Z.quot (mant x) (pow10 (scale x)).

(** ** Calendar dates *)

Record civil_date : Type := Date { year : Z; month : Z; day : Z }.

Definition ms_per_day : Z := 86400000.

(** Days since 1970-01-01 to proleptic Gregorian year, month and day. *)
Definition civil_from_days (days : Z) : civil_date :=
  let z := days + 719468 in
  let era := z / 146097 in
  let doe := z - era * 146097 in
  let yoe := (doe - doe / 1460 + doe / 36524 - doe / 146096) / 365 in
  let y := yoe + era * 400 in
  let doy := doe - (365 * yoe + yoe / 4 - yoe / 100) in
  let mp := (5 * doy + 2) / 153 in
  let d := doy - (153 * mp + 2) / 5 + 1 in
  let m := if mp <? 10 then mp + 3 else mp - 9 in
  Date (if m <=? 2 then y + 1 else y) m d.

Definition day_number (ts_ms : Z) : Z := ts_ms / ms_per_day.

Definition date_of_ms (ts_ms : Z) : civil_date := civil_from_days (day_number ts_ms).

(** Largest magnitude of a millisecond timestamp that fits datetime64[ns]. *)
Definition max_datetime_ms : Z := 9223372036854.

Definition in_datetime_bounds (ts_ms : Z) : bool :=
  (- max_datetime_ms <=? ts_ms) && (ts_ms <=? max_datetime_ms).

(** [pd.to_datetime(column, unit='ms')]. *)
Definition to_datetime_ms (column : list Z) : result (list Z) :=
  if forallb in_datetime_bounds column then Ok column else Raise OutOfBoundsDatetime.

(** ** The raw historical response *)

(** A value cell of the response as [json] decodes it. *)
Inductive jvalue : Type :=
| JNum (x : dec)
| JStr (s : string).

Definition is_num (v : jvalue) : bool :=
  match v with JNum _ => true | JStr _ => false end.

(** Each array holds [[timestamp_ms, value]] pairs. *)
Record raw_data : Type := RawData {
  prices : list (Z * jvalue);
  market_caps : list (Z * jvalue);
  total_volumes : list (Z * jvalue)
}.

(** ** The pandas fragment used by the collector *)

Inductive dtype : Type := float64 | object.

(** Column type that the DataFrame constructor infers for a value column:
    [float64] stands for a numeric column, [object] for a column that holds
    some text. *)
Definition infer_dtype (column : list jvalue) : dtype :=
  if forallb is_num column then float64 else object.

(** [left.merge(right, on='timestamp')]: inner join, one output row per
    matching pair, in the order of the left frame and, for one left row,
    in the order of the right frame. *)
Definition merge {A B} (left : list (Z * A)) (right : list (Z * B)) : list (Z * (A * B)) :=
  flat_map
    (fun l => map (fun r => (fst l, (snd l, snd r)))
                  (List.filter (fun r => fst r =? fst l) right))
    left.

(** [Series.round(decimals)].  On a column of objects numpy finds no
    rounding loop for the first cell, text or number, and raises TypeError;
    an empty column has nothing to round. *)
Definition Series_round (decimals : nat) (dt : dtype) (column : list jvalue)
  : result (list dec) :=
  match dt, column with
  | object, _ :: _ => Raise TypeError
  | _, _ =>
      mapM (fun v => match v with
                     | JNum x => Ok (round_dec decimals x)
                     | JStr _ => Raise TypeError
                     end) column
  end.

(** [Series.astype('int64')]. *)
Definition astype_int64 (column : list dec) : list Z := map int_of_dec column.

(** ** Collector: process_historical_data *)

Record row : Type := Row {
  date : civil_date;
  datetime : Z;          (* milliseconds since the epoch *)
  price : dec;
  market_cap : Z;
  volume : Z
}.

Fixpoint zip_rows (ts : list Z) (ps : list dec) (ms vs : list Z) : list row :=
  match ts, ps, ms, vs with
  | t :: ts', p :: ps', m :: ms', v :: vs' =>
      Row (date_of_ms t) t p m v :: zip_rows ts' ps' ms' vs'
  | _, _, _, _ => []
  end.

Definition process_historical_data (raw : raw_data) : result (list row) :=
  let prices := prices raw in
  let market_caps := market_caps raw in
  let volumes := total_volumes raw in
  let dt_price := infer_dtype (map snd prices) in
  let dt_market_cap := infer_dtype (map snd market_caps) in
  let dt_volume := infer_dtype (map snd volumes) in
  let df := merge (merge prices market_caps) volumes in
  let timestamp := map fst df in
  let* datetime := to_datetime_ms timestamp in
  let* price := Series_round 2 dt_price (map (fun r => fst (fst (snd r))) df) in
  let* market_cap := Series_round 0 dt_market_cap (map (fun r => snd (fst (snd r))) df) in
  let* volume := Series_round 0 dt_volume (map (fun r => snd (snd r)) df) in
  Ok (zip_rows datetime price (astype_int64 market_cap) (astype_int64 volume)).

Definition num (z : Z) : jvalue := JNum (dec_of_Z z).

(** The spec's example, with numbers and with strings as prices. *)
Definition example_numeric : raw_data :=
  RawData [(0, num 100); (86400000, num 200)]
          [(0, num 1000); (86400000, num 2000)]
          [(0, num 10); (86400000, num 20)].

Definition example_strings : raw_data :=
  RawData [(0, JStr "100"); (86400000, JStr "200")]
          [(0, num 1000); (86400000, num 2000)]
          [(0, num 10); (86400000, num 20)].

(** ** Text: decimal digits *)

Local Open Scope string_scope.

Definition digit_char (d : Z) : ascii := ascii_of_nat (48 + Z.to_nat (d mod 10)).

Definition char_digit (c : ascii) : option Z :=
  let n := Z.of_nat (nat_of_ascii c) in
  if ((48 <=? n) && (n <=? 57))%Z then Some (n - 48) else None.

(** The [w] low decimal digits of [n], most significant first. *)
Fixpoint fixed_digits (w : nat) (n : Z) : string :=
  match w with
  | O => ""
  | S w' => String (digit_char (n / pow10 w')) (fixed_digits w' n)
  end.

Fixpoint lstrip_zeros (s : string) : string :=
  match s with
  | String c s' =>
      if (c =? "0")%char
      then match s' with "" => s | _ => lstrip_zeros s' end
      else s
  | "" => ""
  end.

Fixpoint rstrip_zeros (s : string) : string :=
  match s with
  | String c s' =>
      let t := rstrip_zeros s' in
      if (c =? "0")%char && (t =? "") then "" else String c t
  | "" => ""
  end.

(** [str(n)] for [0 <= n]. *)
Definition str_nat (n : Z) : string :=
  lstrip_zeros (fixed_digits (S (Z.to_nat (Z.log2 n))) n).

(** [str(z)] on an int. *)
Definition str_Z (z : Z) : string :=
  if (z <? 0)%Z then "-" ++ str_nat (- z) else str_nat z.

(** [repr(x)] on a float in the positional range: at least one fraction
    digit, no trailing zeros. *)
Definition repr_dec (x : dec) : string :=
  let a := Z.abs (mant x) in
  let frac := rstrip_zeros (fixed_digits (scale x) a) in
  (if (mant x <? 0)%Z then "-" else "") ++
  str_nat (a / pow10 (scale x)) ++ "." ++ (if frac =? "" then "0" else frac).

Fixpoint digits_value (acc : Z) (s : string) : option Z :=
  match s with
  | "" => Some acc
  | String c s' =>
      match char_digit c with
      | Some d => digits_value (10 * acc + d) s'
      | None => None
      end
  end.

Definition parse_nat (s : string) : option Z :=
  match s with
  | "" => None
  | _ => digits_value 0 s
  end.

Definition split_sign (s : string) : bool * string :=
  match s with
  | String "-" s' => (true, s')
  | _ => (false, s)
  end.

Definition signed (neg : bool) (n : Z) : Z := if neg then - n else n.

Definition parse_Z (s : string) : option Z :=
  let (neg, body) := split_sign s in
  option_map (signed neg) (parse_nat body).

(** [split_on sep s] is [s.split(sep)]. *)
Fixpoint split_on (sep : ascii) (s : string) : list string :=
  match s with
  | "" => [""]
  | String c s' =>
      if (c =? sep)%char then "" :: split_on sep s'
      else match split_on sep s' with
           | f :: fs => String c f :: fs
           | [] => [String c ""]
           end
  end.

Fixpoint join (sep : string) (l : list string) : string :=
  match l with
  | [] => ""
  | [f] => f
  | f :: fs => f ++ sep ++ join sep fs
  end.

(** A plain decimal literal: digits, optionally a point and more digits. *)
Definition parse_dec (s : string) : option dec :=
  let (neg, body) := split_sign s in
  match split_on "." body with
  | [i] => option_map (fun n => Dec (signed neg n) 0) (parse_nat i)
  | [i; f] =>
      match parse_nat i, parse_nat f with
      | Some n, Some m =>
          Some (Dec (signed neg (n * pow10 (String.length f) + m)) (String.length f))
      | _, _ => None
      end
  | _ => None
  end.

(** ** Text: dates and times *)

Definition nl : ascii := ascii_of_nat 10.

Definition format_date (d : civil_date) : string :=
  fixed_digits 4 (year d) ++ "-" ++ fixed_digits 2 (month d) ++ "-" ++ fixed_digits 2 (day d).

Definition format_time (ts_ms : Z) : string :=
  let tod := (ts_ms mod ms_per_day)%Z in
  fixed_digits 2 (tod / 3600000) ++ ":" ++
  fixed_digits 2 (tod / 60000 mod 60) ++ ":" ++
  fixed_digits 2 (tod / 1000 mod 60).

(** pandas writes a datetime column in one format for all its rows: the
    date alone when every value is a midnight, otherwise date and time,
    with milliseconds when some value has them. *)
Inductive datetime_format : Type := DateOnly | Seconds | Millis.

Definition column_format (column : list Z) : datetime_format :=
  if forallb (fun t => t mod ms_per_day =? 0)%Z column then DateOnly
  else if forallb (fun t => t mod 1000 =? 0)%Z column then Seconds
  else Millis.

Definition format_datetime (fmt : datetime_format) (ts_ms : Z) : string :=
  match fmt with
  | DateOnly => format_date (date_of_ms ts_ms)
  | Seconds => format_date (date_of_ms ts_ms) ++ " " ++ format_time ts_ms
  | Millis =>
      format_date (date_of_ms ts_ms) ++ " " ++ format_time ts_ms ++ "." ++
      fixed_digits 3 (ts_ms mod 1000)
  end.

Definition days_from_civil (c : civil_date) : Z :=
  (let y := if month c <=? 2 then year c - 1 else year c in
   let era := y / 400 in
   let yoe := y - era * 400 in
   let mp := if month c <=? 2 then month c + 9 else month c - 3 in
   let doy := (153 * mp + 2) / 5 + day c - 1 in
   let doe := yoe * 365 + yoe / 4 - yoe / 100 + doy in
   era * 146097 + doe - 719468)%Z.

Definition option_bind {A B} (o : option A) (k : A -> option B) : option B :=
  match o with
  | Some a => k a
  | None => None
  end.

Notation "'let?' x ':=' o 'in' k" := (option_bind o (fun x => k))
  (at level 10, x name, o at level 100, k at level 200, only parsing).

Fixpoint traverse {A B} (f : A -> option B) (l : list A) : option (list B) :=
  match l with
  | [] => Some []
  | a :: l' => let? b := f a in let? bs := traverse f l' in Some (b :: bs)
  end.

Definition parse_date (s : string) : option civil_date :=
  match split_on "-" s with
  | [y; m; d] =>
      let? y := parse_nat y in
      let? m := parse_nat m in
      let? d := parse_nat d in
      Some (Date y m d)
  | _ => None
  end.

(** Seconds and optional fraction to nanoseconds. *)
Definition parse_seconds (s : string) : option Z :=
  match split_on "." s with
  | [sec] => let? n := parse_nat sec in Some (n * 1000000000)%Z
  | [sec; frac] =>
      let? n := parse_nat sec in
      let? f := parse_nat frac in
      if (String.length frac <=? 9)%nat
      then Some (n * 1000000000 + f * pow10 (9 - String.length frac))%Z
      else None
  | _ => None
  end.

Definition parse_time (s : string) : option Z :=
  match split_on ":" s with
  | [h; m; sec] =>
      let? h := parse_nat h in
      let? m := parse_nat m in
      let? ns := parse_seconds sec in
      Some ((h * 3600 + m * 60) * 1000000000 + ns)%Z
  | _ => None
  end.

(** A timestamp string to nanoseconds since the epoch.  Only the shape of
    the string is checked, not the ranges of its fields. *)
Definition parse_timestamp (s : string) : option Z :=
  match split_on " " s with
  | [d] =>
      let? d := parse_date d in
      Some (days_from_civil d * 86400 * 1000000000)%Z
  | [d; t] =>
      let? d := parse_date d in
      let? ns := parse_time t in
      Some (days_from_civil d * 86400 * 1000000000 + ns)%Z
  | _ => None
  end.

(** ** The processed CSV *)

Definition csv_header : list string :=
  ["date"; "datetime"; "price"; "market_cap"; "volume"].

Definition csv_record (fmt : datetime_format) (r : row) : list string :=
  [format_date (date r); format_datetime fmt (datetime r);
   repr_dec (price r); str_Z (market_cap r); str_Z (volume r)].

Definition unlines (lines : list string) : string :=
  fold_right (fun l acc => l ++ String nl acc) "" lines.

(** [df.to_csv(path, index=False)] on a processed frame. *)
Definition to_csv (df : list row) : string :=
  let fmt := column_format (map datetime df) in
  unlines (join "," csv_header :: map (fun r => join "," (csv_record fmt r)) df).

(** A column of a frame that [read_csv] returns. *)
Inductive column : Type :=
| IntCol (l : list Z)
| FloatCol (l : list dec)
| ObjCol (l : list string)
| TimeCol (l : list Z).      (* nanoseconds since the epoch *)

(** Columns by name, in header order. *)
Definition frame : Type := list (string * column).

Definition column_length (c : column) : nat :=
  match c with
  | IntCol l => length l
  | FloatCol l => length l
  | ObjCol l => length l
  | TimeCol l => length l
  end.

Definition nrows (df : frame) : nat :=
  match df with
  | [] => O
  | (_, c) :: _ => column_length c
  end.

Definition infer_column (cells : list string) : column :=
  match cells with
  | [] => ObjCol []
  | _ =>
      match traverse parse_Z cells with
      | Some zs => IntCol zs
      | None =>
          match traverse parse_dec cells with
          | Some ds => FloatCol ds
          | None => ObjCol cells
          end
      end
  end.

Definition nonblank (s : string) : bool := negb (s =? "").

(** [pd.read_csv(path)] on the text of the file: blank lines are skipped,
    the first line names the columns.  Quoting and missing cells are not
    modelled: a record whose length differs from the header is an error. *)
Definition read_csv (text : string) : result frame :=
  match List.filter nonblank (split_on nl text) with
  | [] => Raise EmptyDataError
  | header :: lines =>
      let names := split_on "," header in
      let records := map (split_on ",") lines in
      if forallb (fun r => (length r =? length names)%nat) records
      then Ok (map (fun jn => (snd jn, infer_column (map (fun r => nth (fst jn) r "") records)))
                   (combine (seq 0 (length names)) names))
      else Raise ParserError
  end.

(** [df[name]]. *)
Fixpoint getitem (name : string) (df : frame) : result column :=
  match df with
  | [] => Raise (KeyError name)
  | (n, c) :: df' => if (n =? name) then Ok c else getitem name df'
  end.

(** [df[name] = c] for a column that exists. *)
Fixpoint setitem (name : string) (c : column) (df : frame) : frame :=
  match df with
  | [] => []
  | (n, c') :: df' => if (n =? name) then (n, c) :: df' else (n, c') :: setitem name c df'
  end.

(** [pd.to_datetime(column)]. *)
Definition to_datetime (c : column) : result column :=
  match c with
  | ObjCol cells =>
      match traverse parse_timestamp cells with
      | Some ts => Ok (TimeCol ts)
      | None => Raise ValueError
      end
  | IntCol ns => Ok (TimeCol ns)
  | FloatCol xs => Ok (TimeCol (map int_of_dec xs))
  | TimeCol ts => Ok (TimeCol ts)
  end.

(** ** The world: files, clock and network *)

(** A decoded JSON document, for the files that [json.dump] writes. *)
#[local] Unset Elimination Schemes.
Inductive json : Type :=
| JsNumber (x : dec)
| JsString (s : string)
| JsArray (items : list json)
| JsObject (members : list (string * json)).
#[local] Set Elimination Schemes.

(** The current quote of one coin: field name to number. *)
Definition quote : Type := list (string * dec).

(** What [response.json()] can decode to for the two endpoints. *)
Inductive payload : Type :=
| QuoteMap (coins : list (string * quote))
| Chart (raw : raw_data).

Record response : Type := Response {
  status_code : Z;
  body : option payload          (* [None]: the body is not JSON *)
}.

Record request : Type := Request {
  url : string;
  params : list (string * string)
}.

Record world : Type := World {
  fs : gmap string string;        (* path to content *)
  dirs : gset string;             (* directories made so far *)
  clock : Z;                      (* seconds since the epoch *)
  replies : list response;        (* what the network will answer, in order *)
  sent : list request             (* requests issued so far, latest first *)
}.

Definition M (A : Type) : Type := world -> result A * world.

Definition ret {A} (a : A) : M A := fun w => (Ok a, w).

Definition raise {A} (e : exn) : M A := fun w => (Raise e, w).

Definition mbind {A B} (m : M A) (k : A -> M B) : M B :=
  fun w =>
    match m w with
    | (Ok a, w') => k a w'
    | (Raise e, w') => (Raise e, w')
    end.

Notation "'do' x '<-' m ';' k" := (mbind m (fun x => k))
  (at level 10, x name, m at level 100, k at level 200, only parsing).

Definition lift {A} (r : result A) : M A := fun w => (r, w).

(** [try: body except ...: handler]. *)
Definition try_except {A} (body : M A) (handler : exn -> M A) : M A :=
  fun w =>
    match body w with
    | (Ok a, w') => (Ok a, w')
    | (Raise e, w') => handler e w'
    end.

Definition mkdir (path : string) : M unit :=
  fun w => (Ok tt, World (fs w) ({[path]} ∪ dirs w) (clock w) (replies w) (sent w)).

(** [open(path, "w")] followed by one write of [content]. *)
Definition write_file (path content : string) : M unit :=
  fun w => (Ok tt, World (<[path := content]> (fs w)) (dirs w) (clock w) (replies w) (sent w)).

Definition read_file (path : string) : M string :=
  fun w =>
    match fs w !! path with
    | Some content => (Ok content, w)
    | None => (Raise (FileNotFoundError path), w)
    end.

Definition now : M Z := fun w => (Ok (clock w), w).

Definition sleep (seconds : Z) : M unit :=
  fun w => (Ok tt, World (fs w) (dirs w) (clock w + seconds) (replies w) (sent w)).

(** [requests.get(url, params=params)]: one request, one reply. *)
Definition requests_get (url : string) (params : list (string * string)) : M response :=
  fun w =>
    let w' reps := World (fs w) (dirs w) (clock w) reps (Request url params :: sent w) in
    match replies w with
    | r :: reps => (Ok r, w' reps)
    | [] => (Raise ConnectionError, w' [])
    end.

Definition response_json (r : response) : result payload :=
  match body r with
  | Some p => Ok p
  | None => Raise JSONDecodeError
  end.

(** ** Collector: fetching *)

Definition base_url : string := "https://api.coingecko.com/api/v3".
Definition coin_id : string := "bitcoin".

Fixpoint assoc {A} (key : string) (l : list (string * A)) : option A :=
  match l with
  | [] => None
  | (k, a) :: l' => if (k =? key) then Some a else assoc key l'
  end.

Definition dict_get {A} (key : string) (l : list (string * A)) : result A :=
  match assoc key l with
  | Some a => Ok a
  | None => Raise (KeyError key)
  end.

Definition collect_current_price : M quote :=
  let url := base_url ++ "/simple/price" in
  let params := [("ids", coin_id); ("vs_currencies", "usd");
                 ("include_market_cap", "true"); ("include_24hr_vol", "true");
                 ("include_24hr_change", "true"); ("include_last_updated_at", "true")] in
  do response <- requests_get url params;
  if (status_code response =? 200)%Z
  then
    do data <- lift (response_json response);
    match data with
    | QuoteMap coins => lift (dict_get coin_id coins)
    | Chart _ => raise (KeyError coin_id)
    end
  else raise (Exception ("Failed to fetch current price: " ++ str_Z (status_code response))).

Definition collect_historical_prices (days : Z) : M payload :=
  let url := base_url ++ "/coins/" ++ coin_id ++ "/market_chart" in
  let params := [("vs_currency", "usd"); ("days", str_Z days); ("interval", "daily")] in
  do response <- requests_get url params;
  if (status_code response =? 200)%Z
  then lift (response_json response)
  else raise (Exception ("Failed to fetch historical data: " ++ str_Z (status_code response))).

(** [process_historical_data] on whatever the historical fetch decoded. *)
Definition process_payload (historical_data : payload) : result (list row) :=
  match historical_data with
  | Chart raw => process_historical_data raw
  | QuoteMap _ => Raise (KeyError "prices")
  end.

(** ** Collector: persisting *)

Definition json_of_quote (q : quote) : json :=
  JsObject (map (fun kv => (fst kv, JsNumber (snd kv))) q).

Definition json_of_jvalue (v : jvalue) : json :=
  match v with
  | JNum x => JsNumber x
  | JStr s => JsString s
  end.

Definition json_of_series (l : list (Z * jvalue)) : json :=
  JsArray (map (fun tv => JsArray [JsNumber (dec_of_Z (fst tv)); json_of_jvalue (snd tv)]) l).

Definition json_of_payload (p : payload) : json :=
  match p with
  | QuoteMap coins => JsObject (map (fun kv => (fst kv, json_of_quote (snd kv))) coins)
  | Chart raw =>
      JsObject [("prices", json_of_series (prices raw));
                ("market_caps", json_of_series (market_caps raw));
                ("total_volumes", json_of_series (total_volumes raw))]
  end.

(** Wall-clock rendering: [strftime("%Y%m%d_%H%M%S")] and [isoformat()]. *)
Definition strftime_stamp (t : Z) : string :=
  let d := civil_from_days (t / 86400) in
  let tod := (t mod 86400)%Z in
  fixed_digits 4 (year d) ++ fixed_digits 2 (month d) ++ fixed_digits 2 (day d) ++ "_" ++
  fixed_digits 2 (tod / 3600) ++ fixed_digits 2 (tod / 60 mod 60) ++ fixed_digits 2 (tod mod 60).

Definition isoformat (t : Z) : string :=
  let tod := (t mod 86400)%Z in
  format_date (civil_from_days (t / 86400)) ++ "T" ++
  fixed_digits 2 (tod / 3600) ++ ":" ++ fixed_digits 2 (tod / 60 mod 60) ++ ":" ++
  fixed_digits 2 (tod mod 60).

Definition processed_csv : string := "data/processed/bitcoin_prices.csv".
Definition descriptor_path : string := "datapackage.json".

Definition field (name type title description : string) : json :=
  JsObject [("name", JsString name); ("type", JsString type);
            ("title", JsString title); ("description", JsString description)].

(** The descriptor of [create_datapackage]; only [created] and [bytes] vary. *)
Definition datapackage (created : string) (bytes : Z) : json :=
  JsObject
    [("name", JsString "bitcoin-price-data");
     ("title", JsString "Bitcoin Price Data");
     ("description", JsString "Daily Bitcoin price, market capitalization, and trading volume data from CoinGecko API");
     ("version", JsString "1.0.0");
     ("created", JsString created);
     ("contributors",
      JsArray [JsObject [("title", JsString "Abeelha (Data Package Creator)");
                         ("roles", JsArray [JsString "creator"; JsString "maintainer"])]]);
     ("licenses",
      JsArray [JsObject [("name", JsString "CC-BY-4.0");
                         ("title", JsString "Creative Commons Attribution 4.0 International");
                         ("path", JsString "https://creativecommons.org/licenses/by/4.0/")]]);
     ("sources",
      JsArray [JsObject [("title", JsString "CoinGecko API");
                         ("path", JsString "https://api.coingecko.com/api/v3");
                         ("description", JsString "Free cryptocurrency price API")]]);
     ("keywords",
      JsArray [JsString "bitcoin"; JsString "cryptocurrency"; JsString "price";
               JsString "market-data"; JsString "financial"]);
     ("resources",
      JsArray [JsObject
        [("name", JsString "bitcoin-prices");
         ("path", JsString "data/processed/bitcoin_prices.csv");
         ("title", JsString "Bitcoin Daily Prices");
         ("description", JsString "Daily Bitcoin price, market cap, and volume data");
         ("format", JsString "csv");
         ("mediatype", JsString "text/csv");
         ("encoding", JsString "utf-8");
         ("bytes", JsNumber (dec_of_Z bytes));
         ("schema",
          JsObject [("fields",
            JsArray [field "date" "date" "Date" "Date of price data (YYYY-MM-DD)";
                     field "datetime" "datetime" "DateTime" "Full timestamp of price data";
                     field "price" "number" "Price (USD)" "Bitcoin price in US Dollars";
                     field "market_cap" "integer" "Market Capitalization" "Total market capitalization in USD";
                     field "volume" "integer" "24h Trading Volume" "24-hour trading volume in USD"])])]])].

(** Reading a descriptor: its resources' recorded sizes. *)
Definition json_member (key : string) (j : json) : option json :=
  match j with
  | JsObject members => assoc key members
  | _ => None
  end.

Definition resource_bytes (j : json) : option (list json) :=
  match json_member "resources" j with
  | Some (JsArray rs) => traverse (json_member "bytes") rs
  | _ => None
  end.

Definition exit_status (r : result Z) : Z :=
  match r with
  | Ok code => code
  | Raise _ => 1%Z       (* an uncaught exception ends the process with status 1 *)
  end.

(** [df.iloc[-1]] on a processed frame. *)
Definition iloc_last {A} (df : list A) : result A :=
  match rev df with
  | r :: _ => Ok r
  | [] => Raise IndexError
  end.

Definition iloc_first {A} (df : list A) : result A :=
  match df with
  | r :: _ => Ok r
  | [] => Raise IndexError
  end.

Module Collector.
Section WithJson.

(** [json.dumps(_, indent=2)], the text that [json.dump] writes. *)
Variable json_dumps : json -> string.

Definition save_raw_data (current_data : quote) (historical_data : payload) : M unit :=
  do _ <- mkdir "data";
  do _ <- mkdir "data/raw";
  do t <- now;
  let timestamp := strftime_stamp t in
  do _ <- write_file ("data/raw/current_price_" ++ timestamp ++ ".json")
                     (json_dumps (json_of_quote current_data));
  write_file ("data/raw/historical_data_" ++ timestamp ++ ".json")
             (json_dumps (json_of_payload historical_data)).

Definition save_processed_data (df : list row) : M string :=
  do _ <- mkdir "data";
  do _ <- mkdir "data/processed";
  let output_file := processed_csv in
  do _ <- write_file output_file (to_csv df);
  ret output_file.

Definition create_datapackage (csv_file : string) : M unit :=
  do text <- read_file csv_file;
  do df <- lift (read_csv text);
  do t <- now;
  write_file descriptor_path
             (json_dumps (datapackage (isoformat t) (Z.of_nat (nrows df) * 100))).

(** Console output is not modelled; a message is kept only as the lookup
    that evaluating it performs.  The optional [frictionless] validation
    runs another program and does not touch the files of the run. *)
Definition main : M Z :=
  try_except
    (do current_data <- collect_current_price;
     do _ <- lift (dict_get "usd" current_data);
     do _ <- sleep 1;
     do historical_data <- collect_historical_prices 365;
     do _ <- save_raw_data current_data historical_data;
     do df_processed <- lift (process_payload historical_data);
     do csv_file <- save_processed_data df_processed;
     do _ <- create_datapackage csv_file;
     do _ <- lift (iloc_last df_processed);
     do _ <- lift (iloc_first df_processed);
     ret 0%Z)
    (fun e => ret 1%Z).

End WithJson.
End Collector.

(** ** Reporter *)

Inductive trace_kind : Type := Scatter | Bar.

Record Figure : Type := MkFigure {
  trace : trace_kind;
  x : column;
  y : column;
  name : string;
  color : string;
  hovertemplate : string;
  title : string;
  xaxis_title : string;
  yaxis_title : string;
  height : Z;
  showlegend : bool
}.

Definition create_simple_price_chart (df : frame) : result Figure :=
  let* x := getitem "date" df in
  let* y := getitem "price" df in
  Ok (MkFigure Scatter x y "Bitcoin Price" "orange"
        "<b>$%{y:,.2f}</b><br>%{x}<extra></extra>"
        "Bitcoin Price Over Time" "Date" "Price (USD)" 600 false).

Definition create_volume_chart (df : frame) : result Figure :=
  let* x := getitem "date" df in
  let* y := getitem "volume" df in
  Ok (MkFigure Bar x y "24h Volume" "lightblue"
        "<b>$%{y:,.0f}</b><br>%{x}<extra></extra>"
        "Bitcoin 24h Trading Volume" "Date" "Volume (USD)" 400 false).

(** The numbers of a numeric column; aggregating text raises. *)
Definition numbers (c : column) : result (list Q) :=
  match c with
  | IntCol l => Ok (map inject_Z l)
  | FloatCol l => Ok (map dec_to_Q l)
  | ObjCol _ => Raise TypeError
  | TimeCol _ => Raise TypeError
  end.

Definition Qmin2 (a b : Q) : Q := if Qle_bool a b then a else b.
Definition Qmax2 (a b : Q) : Q := if Qle_bool a b then b else a.

Definition series_min (xs : list Q) : Q := fold_left Qmin2 (tl xs) (hd 0%Q xs).
Definition series_max (xs : list Q) : Q := fold_left Qmax2 (tl xs) (hd 0%Q xs).
Definition series_sum (xs : list Q) : Q := fold_left Qplus xs 0%Q.
Definition series_mean (xs : list Q) : Q :=
  (series_sum xs / inject_Z (Z.of_nat (length xs)))%Q.

Fixpoint group_thousands (digits : string) : string :=
  match digits with
  | "" => ""
  | String c rest =>
      let n := String.length rest in
      String c ((if (0 <? n)%nat && (n mod 3 =? 0)%nat then "," else "") ++
                group_thousands rest)
  end.

(** [f'{v:,.2f}']: two decimals, half to even, thousands separated. *)
Definition format_2f (v : Q) : string :=
  let cents := Z.abs (round_half_even_div (Qnum v * 100) (Z.pos (Qden v))) in
  (if (Qnum v <? 0)%Z then "-" else "") ++
  group_thousands (str_nat (cents / 100)) ++ "." ++ fixed_digits 2 cents.

Definition money (v : Q) : string := "$" ++ format_2f v.

(** The four aggregates of lines 81 to 84, in source order. *)
Record aggregates : Type := Aggregates {
  current_price : Q;
  min_price : Q;
  max_price : Q;
  avg_price : Q
}.

Definition price_aggregates (df : frame) : result aggregates :=
  if (nrows df =? 0)%nat then Raise IndexError else
  let* column := getitem "price" df in
  let* xs := numbers column in
  Ok (Aggregates (List.last xs 0%Q) (series_min xs) (series_max xs) (series_mean xs)).

Definition create_summary_stats (df : frame) : result (list (string * string)) :=
  let* a := price_aggregates df in
  Ok [("Current Price", money (current_price a));
      ("Year High", money (max_price a));
      ("Year Low", money (min_price a));
      ("Average Price", money (avg_price a));
      ("Price Range", money (max_price a - min_price a)%Q)].

Definition dq : string := String (ascii_of_nat 34) "".

Definition lines (l : list string) : string := join (String nl "") l.

Definition html_head (generated : string) : string :=
  lines
    [""; "    <!DOCTYPE html>"; "    <html>"; "    <head>";
     "        <title>Bitcoin Price Report</title>";
     "        <script src=" ++ dq ++ "https://cdn.plot.ly/plotly-latest.min.js" ++ dq ++ "></script>";
     "        <style>";
     "            body { font-family: Arial, sans-serif; margin: 20px; }";
     "            .stats { display: flex; justify-content: space-around; margin: 20px 0; }";
     "            .stat-box { text-align: center; padding: 15px; border: 1px solid #ddd; border-radius: 5px; }";
     "            .chart { margin: 20px 0; }";
     "        </style>"; "    </head>"; "    <body>";
     "        <h1>🪙 Bitcoin Price Report</h1>";
     "        <p>Generated on: " ++ generated ++ "</p>";
     "";
     "        <div class=" ++ dq ++ "stats" ++ dq ++ ">";
     "    "].

Definition html_stat (label value : string) : string :=
  lines
    [""; "            <div class=" ++ dq ++ "stat-box" ++ dq ++ ">";
     "                <h3>" ++ value ++ "</h3>";
     "                <p>" ++ label ++ "</p>";
     "            </div>"; "        "].

Definition html_charts : string :=
  lines
    [""; "        </div>"; "";
     "        <div class=" ++ dq ++ "chart" ++ dq ++ ">";
     "            <div id=" ++ dq ++ "price-chart" ++ dq ++ "></div>";
     "        </div>"; "";
     "        <div class=" ++ dq ++ "chart" ++ dq ++ ">";
     "            <div id=" ++ dq ++ "volume-chart" ++ dq ++ "></div>";
     "        </div>"; "";
     "        <script>"; "    "].

Definition html_script (price_json volume_json : string) : string :=
  lines
    [""; "            var priceConfig = " ++ price_json ++ ";";
     "            Plotly.newPlot('price-chart', priceConfig.data, priceConfig.layout, {responsive: true});";
     "";
     "            var volumeConfig = " ++ volume_json ++ ";";
     "            Plotly.newPlot('volume-chart', volumeConfig.data, volumeConfig.layout, {responsive: true});";
     "        </script>"; "    </body>"; "    </html>"; "    "].

(** [strftime('%Y-%m-%d %H:%M UTC')]. *)
Definition strftime_minutes (t : Z) : string :=
  let tod := (t mod 86400)%Z in
  format_date (civil_from_days (t / 86400)) ++ " " ++
  fixed_digits 2 (tod / 3600) ++ ":" ++ fixed_digits 2 (tod / 60 mod 60) ++ " UTC".

Module Reporter.
Section WithPlotly.

(** [Figure.to_json()] and the page that [Figure.write_html] writes. *)
Variable to_json : Figure -> string.
Variable to_html : Figure -> string.

Definition load_data : M (option frame) :=
  try_except
    (do text <- read_file processed_csv;
     do df <- lift (read_csv text);
     do date <- lift (let* c := getitem "date" df in to_datetime c);
     let df := setitem "date" date df in
     do datetime <- lift (let* c := getitem "datetime" df in to_datetime c);
     let df := setitem "datetime" datetime df in
     ret (Some df))
    (fun e => match e with
              | FileNotFoundError _ => ret None
              | _ => raise e
              end).

Definition create_html_report (price_fig volume_fig : Figure)
    (stats : list (string * string)) : M string :=
  do t <- now;
  let html_content := html_head (strftime_minutes t) in
  let html_content :=
    fold_left (fun html kv => html ++ html_stat (fst kv) (snd kv)) stats html_content in
  let html_content := html_content ++ html_charts in
  let html_content := html_content ++ html_script (to_json price_fig) (to_json volume_fig) in
  ret html_content.

Definition main : M Z :=
  do df <- load_data;
  match df with
  | None => ret 1%Z
  | Some df =>
      do _ <- mkdir "visualizations";
      do price_fig <- lift (create_simple_price_chart df);
      do volume_fig <- lift (create_volume_chart df);
      do stats <- lift (create_summary_stats df);
      do _ <- write_file "visualizations/bitcoin_price_chart.html" (to_html price_fig);
      do _ <- write_file "visualizations/bitcoin_volume_chart.html" (to_html volume_fig);
      do report_html <- create_html_report price_fig volume_fig stats;
      do _ <- write_file "visualizations/bitcoin_report.html" report_html;
      ret 0%Z
  end.

End WithPlotly.
End Reporter.

(** ** Notions used to state the properties *)

Definition timestamps {A} (series : list (Z * A)) : list Z := map fst series.





Definition number_of (v : jvalue) : dec :=
  match v with
  | JNum x => x
  | JStr _ => dec_of_Z 0
  end.

(** The output row of one row of the merged frame. *)
Definition row_of (r : Z * ((jvalue * jvalue) * jvalue)) : row :=
  Row (date_of_ms (fst r)) (fst r)
      (round_dec 2 (number_of (fst (fst (snd r)))))
      (int_of_dec (round_dec 0 (number_of (snd (fst (snd r))))))
      (int_of_dec (round_dec 0 (number_of (snd (snd r))))).

Definition merged (raw : raw_data) : list (Z * ((jvalue * jvalue) * jvalue)) :=
  merge (merge (prices raw) (market_caps raw)) (total_volumes raw).

(** A frame is well formed when its columns have one length. *)
Definition frame_wf (df : frame) : Prop :=
  Forall (fun nc => column_length (snd nc) = nrows df) df.

(** Character classes of the text that the collector writes. *)
Fixpoint string_forall (P : ascii -> bool) (s : string) : bool :=
  match s with
  | "" => true
  | String c s' => P c && string_forall P s'
  end.

Definition is_digit (c : ascii) : bool :=
  match char_digit c with Some _ => true | None => false end.

Definition other_than (sep : ascii) (c : ascii) : bool := negb (c =? sep)%char.

(** Digits and the punctuation of numbers, dates and times. *)
Definition plain (c : ascii) : bool :=
  is_digit c || (c =? "-")%char || (c =? ".")%char || (c =? ":")%char || (c =? " ")%char.

(** Two decimals denote the same number. *)
Definition dec_eq (x y : dec) : Prop :=
  (mant x * pow10 (scale y) = mant y * pow10 (scale x))%Z.

(** The numbers held by a column of a frame read from a file. *)
Definition column_values (c : column) : option (list Q) :=
  match c with
  | IntCol l => Some (map inject_Z l)
  | FloatCol l => Some (map dec_to_Q l)
  | ObjCol [] => Some []
  | _ => None
  end.



(** ** Inputs used as examples *)

(** A valid response whose price array lists one timestamp twice. *)
Definition duplicated_price : raw_data :=
  RawData [(0, num 100); (0, num 101)] [(0, num 1000)] [(0, num 10)].




(** The world once [save_processed_data df] has run in [w]. *)
Definition saved (df : list row) (w : world) : world :=
  World (<[processed_csv := to_csv df]> (fs w))
        ({["data/processed"%string]} ∪ ({["data"%string]} ∪ dirs w))
        (clock w) (replies w) (sent w).

(** A world with no file and no network. *)
Definition empty_world : world := World ∅ ∅ 0 [] [].


(** A world whose network answers both requests, with price and volume for
    one day and the market cap for another. *)
Definition disjoint_days : world :=
  World ∅ ∅ 0
    [Response 200 (Some (QuoteMap [("bitcoin", [("usd", Dec 6841250 2)])]));
     Response 200 (Some (Chart (RawData [(0, num 100)] [(86400000, num 2000)] [(0, num 10)])))]
    [].

(** ** Notions used by the further properties *)

(** Number of entries of a series at one timestamp. *)
Definition matches {A} (t : Z) (series : list (Z * A)) : nat :=
  length (List.filter (fun r => fst r =? t)%Z series).


(** The two files of [save_raw_data] for a run stamped at second [t]. *)
Definition current_price_path (t : Z) : string :=
  ("data/raw/current_price_" ++ strftime_stamp t ++ ".json")%string.

Definition historical_data_path (t : Z) : string :=
  ("data/raw/historical_data_" ++ strftime_stamp t ++ ".json")%string.

(** The world once [save_raw_data] has run in [w]. *)
Definition raw_saved (json_dumps : json -> string) (current_data : quote)
    (historical_data : payload) (w : world) : world :=
  World (<[historical_data_path (clock w) := json_dumps (json_of_payload historical_data)]>
           (<[current_price_path (clock w) := json_dumps (json_of_quote current_data)]> (fs w)))
        ({["data/raw"%string]} ∪ ({["data"%string]} ∪ dirs w))
        (clock w) (replies w) (sent w).



(** The three files of the reporter. *)
Definition price_chart_path : string := "visualizations/bitcoin_price_chart.html".
Definition volume_chart_path : string := "visualizations/bitcoin_volume_chart.html".
Definition report_path : string := "visualizations/bitcoin_report.html".

(** A world that holds the CSV of the two-day example. *)
Definition two_days_saved : world :=
  saved [Row (Date 1970 1 1) 0 (Dec 10000 2) 1000 10;
         Row (Date 1970 1 2) 86400000 (Dec 20000 2) 2000 20] empty_world.

Definition concat_strings (l : list string) : string :=
  fold_right String.append ""%string l.

(** The world in which the reporter has made its directory. *)
Definition started (w : world) : world :=
  World (fs w) ({["visualizations"%string]} ∪ dirs w) (clock w) (replies w) (sent w).

(** The text that [create_html_report] returns when the clock reads [t]. *)
Definition report_text (to_json : Figure -> string) (price_fig volume_fig : Figure)
    (stats : list (string * string)) (t : Z) : string :=
  ((fold_left (fun html kv => html ++ html_stat (fst kv) (snd kv)) stats
      (html_head (strftime_minutes t)) ++ html_charts) ++
   html_script (to_json price_fig) (to_json volume_fig))%string.

(** The world in which the reporter has written its three files. *)
Definition reported (to_json to_html : Figure -> string) (price_fig volume_fig : Figure)
    (stats : list (string * string)) (w : world) : world :=
  World (<[report_path := report_text to_json price_fig volume_fig stats (clock w)]>
           (<[volume_chart_path := to_html volume_fig]>
              (<[price_chart_path := to_html price_fig]> (fs w))))
        ({["visualizations"%string]} ∪ dirs w) (clock w) (replies w) (sent w).

(** Reading a descriptor: its resources, and the column names of a
    resource's schema. *)
Definition descriptor_resources (j : json) : list json :=
  match json_member "resources" j with
  | Some (JsArray rs) => rs
  | _ => []
  end.

Definition schema_field_names (resource : json) : option (list json) :=
  match json_member "schema" resource with
  | Some schema =>
      match json_member "fields" schema with
      | Some (JsArray fields) => traverse (json_member "name") fields
      | _ => None
      end
  | None => None
  end.

(** * Properties *)

Local Open Scope list_scope.
Local Open Scope Z_scope.

(** ** The scripts on small inputs *)

Example process_example_numeric :
  process_historical_data example_numeric =
  Ok [Row (Date 1970 1 1) 0 (Dec 10000 2) 1000 10;
      Row (Date 1970 1 2) 86400000 (Dec 20000 2) 2000 20].
Proof. reflexivity. Qed.

Example process_example_strings :
  process_historical_data example_strings = Raise TypeError.
Proof. reflexivity. Qed.

Example round_ties_to_even :
  map (round_dec 2) [Dec 12345 3; Dec 12355 3; Dec (-12345) 3; Dec 1 0] =
  [Dec 1234 2; Dec 1236 2; Dec (-1234) 2; Dec 100 2].
Proof. reflexivity. Qed.

Example csv_record_example :
  csv_record Millis (Row (Date 2024 3 9) 1709942400123 (Dec 6841250 2) 1344000000000 (-5)) =
  ["2024-03-09"; "2024-03-09 00:00:00.123"; "68412.5"; "1344000000000"; "-5"]%string.
Proof. reflexivity. Qed.

Example read_csv_header_only :
  read_csv (to_csv []) =
  Ok [("date", ObjCol []); ("datetime", ObjCol []); ("price", ObjCol []);
      ("market_cap", ObjCol []); ("volume", ObjCol [])]%string.
Proof. reflexivity. Qed.

Example money_examples :
  map money [1234567891 # 1000; 5 # 1; 1 # 8; 0]%Q =
  ["$1,234,567.89"; "$5.00"; "$0.12"; "$0.00"]%string.
Proof. reflexivity. Qed.

(** ** Merging *)

Section Merge.
Context {A B : Type}.
Implicit Types (left : list (Z * A)) (right : list (Z * B)).

Lemma merge_cons l left right :
  merge (l :: left) right =
  map (fun r => (fst l, (snd l, snd r))) (List.filter (fun r => fst r =? fst l) right)
  ++ merge left right.
Proof. reflexivity. Qed.




(** The key column of a merge lists each left key once per match. *)
Lemma merge_timestamps left right :
  timestamps (merge left right) =
  flat_map (fun t => repeat t (length (List.filter (fun r => fst r =? t) right)))
           (timestamps left).
Proof.
  induction left as [|l left IH]; [reflexivity|].
  rewrite merge_cons. unfold timestamps in *. rewrite map_app, IH. simpl. f_equal.
  rewrite map_map. simpl.
  induction (List.filter (fun r => fst r =? fst l) right); simpl; congruence.
Qed.



End Merge.


(** ** Rounding *)

Lemma pow10_pos n : 0 < pow10 n.
Proof. unfold pow10. apply Z.pow_pos_nonneg; lia. Qed.






(** ** process_historical_data *)

Lemma mapM_round_inv decimals column xs :
  mapM (fun v => match v with
                 | JNum x => Ok (round_dec decimals x)
                 | JStr _ => Raise TypeError
                 end) column = Ok xs ->
  forallb is_num column = true /\
  xs = map (fun v => round_dec decimals (number_of v)) column.
Proof.
  revert xs. induction column as [|v column IH]; simpl; intros xs H.
  - now inversion H.
  - destruct v as [x|s]; simpl in H; [|discriminate].
    destruct (mapM _ column) as [ys|e]; simpl in H; [|discriminate].
    inversion H; subst. destruct (IH ys eq_refl) as [-> ->]. now split.
Qed.

Lemma Series_round_inv decimals dt column xs :
  Series_round decimals dt column = Ok xs ->
  forallb is_num column = true /\
  xs = map (fun v => round_dec decimals (number_of v)) column.
Proof.
  unfold Series_round. destruct dt, column; try discriminate; apply mapM_round_inv.
Qed.


Lemma zip_rows_merged (df : list (Z * ((jvalue * jvalue) * jvalue))) :
  zip_rows (map fst df)
    (map (fun v => round_dec 2 (number_of v)) (map (fun r => fst (fst (snd r))) df))
    (astype_int64 (map (fun v => round_dec 0 (number_of v)) (map (fun r => snd (fst (snd r))) df)))
    (astype_int64 (map (fun v => round_dec 0 (number_of v)) (map (fun r => snd (snd r)) df)))
  = map row_of df.
Proof.
  induction df as [|r df IH]; [reflexivity|]. simpl. now rewrite IH.
Qed.

(** What a successful run returns, and what success requires. *)
Lemma process_inv raw rows :
  process_historical_data raw = Ok rows ->
  rows = map row_of (merged raw) /\
  Forall (fun r => is_num (fst (fst (snd r))) = true /\
                   is_num (snd (fst (snd r))) = true /\
                   is_num (snd (snd r)) = true) (merged raw).
Proof.
  unfold process_historical_data. fold (merged raw). unfold to_datetime_ms.
  destruct (forallb in_datetime_bounds _); [|discriminate]. simpl.
  destruct (Series_round 2 _ _) as [ps|] eqn:Ep; [|discriminate]. simpl.
  destruct (Series_round 0 _ (map (fun r => snd (fst (snd r))) _)) as [ms|] eqn:Em;
    [|discriminate]. simpl.
  destruct (Series_round 0 _ (map (fun r => snd (snd r)) _)) as [vs|] eqn:Ev;
    [|discriminate]. simpl.
  intros H. inversion H; subst rows; clear H.
  apply Series_round_inv in Ep as [Np ->], Em as [Nm ->], Ev as [Nv ->].
  split; [apply zip_rows_merged|].
  rewrite forallb_forall in Np, Nm, Nv. apply List.Forall_forall. intros r Hr.
  repeat split; [apply Np | apply Nm | apply Nv];
    apply in_map_iff; exists r; now split.
Qed.





Lemma datetime_row_of df : map datetime (map row_of df) = timestamps df.
Proof. unfold timestamps. rewrite map_map. reflexivity. Qed.



(** ** C1 *)




(** ** C2 *)




(** ** C3 *)



(** ** C4 *)




(** ** Summary statistics *)














Lemma getitem_In name df c : getitem name df = Ok c -> In (name, c) df.
Proof.
  induction df as [|[n c'] df IH]; simpl; [discriminate|].
  destruct (String.eqb_spec n name) as [->|_].
  - intros H. inversion H. now left.
  - intros H. right. now apply IH.
Qed.




(** ** Text *)

Local Open Scope string_scope.
#[local] Arguments String.append !_ _ / : simpl nomatch.
#[local] Arguments pow10 : simpl never.
#[local] Arguments digit_char : simpl never.
#[local] Arguments str_nat : simpl never.
#[local] Arguments fixed_digits : simpl never.

Lemma append_assoc (a b c : string) : (a ++ b) ++ c = a ++ (b ++ c).
Proof. induction a as [|ch a IH]; simpl; [reflexivity | now rewrite IH]. Qed.

Lemma append_nil_r (a : string) : a ++ "" = a.
Proof. induction a as [|ch a IH]; simpl; [reflexivity | now rewrite IH]. Qed.

Lemma length_append (a b : string) :
  String.length (a ++ b) = (String.length a + String.length b)%nat.
Proof. induction a as [|ch a IH]; simpl; [reflexivity | now rewrite IH]. Qed.

Lemma string_forall_app P a b :
  string_forall P (a ++ b) = string_forall P a && string_forall P b.
Proof.
  induction a as [|ch a IH]; simpl; [reflexivity|]. now rewrite IH, andb_assoc.
Qed.

Lemma string_forall_impl (P R : ascii -> bool) s :
  (forall c, P c = true -> R c = true) ->
  string_forall P s = true -> string_forall R s = true.
Proof.
  intros H. induction s as [|c s IH]; simpl; [reflexivity|].
  rewrite !andb_true_iff. intros [Hc Hs]. split; [now apply H | now apply IH].
Qed.

Lemma char_digit_digit_char d : char_digit (digit_char d) = Some (d mod 10)%Z.
Proof.
  unfold char_digit, digit_char.
  pose proof (Z.mod_pos_bound d 10 ltac:(lia)) as B.
  rewrite nat_ascii_embedding by lia.
  rewrite Nat2Z.inj_add, Z2Nat.id by lia. change (Z.of_nat 48) with 48%Z.
  set (k := (d mod 10)%Z) in *.
  destruct (Z.leb_spec 48 (48 + k)); [|lia].
  destruct (Z.leb_spec (48 + k) 57); [|lia].
  cbn [andb]. f_equal. lia.
Qed.

Lemma is_digit_digit_char d : is_digit (digit_char d) = true.
Proof. unfold is_digit. now rewrite char_digit_digit_char. Qed.

Lemma fixed_digits_S w n :
  fixed_digits (S w) n = String (digit_char (n / pow10 w)) (fixed_digits w n).
Proof. reflexivity. Qed.

Lemma fixed_digits_digits w n : string_forall is_digit (fixed_digits w n) = true.
Proof.
  induction w as [|w IH]; [reflexivity|].
  rewrite fixed_digits_S. cbn [string_forall]. now rewrite is_digit_digit_char, IH.
Qed.

Lemma fixed_digits_length w n : String.length (fixed_digits w n) = w.
Proof.
  induction w as [|w IH]; [reflexivity|].
  rewrite fixed_digits_S. cbn [String.length]. now rewrite IH.
Qed.

Lemma pow10_S w : pow10 (S w) = (10 * pow10 w)%Z.
Proof. unfold pow10. rewrite Nat2Z.inj_succ, Z.pow_succ_r by lia. reflexivity. Qed.

Lemma pow10_add a b : pow10 (a + b) = (pow10 a * pow10 b)%Z.
Proof. unfold pow10. rewrite Nat2Z.inj_add, Z.pow_add_r by lia. reflexivity. Qed.

Lemma digits_value_fixed w n acc :
  digits_value acc (fixed_digits w n) = Some (acc * pow10 w + n mod pow10 w)%Z.
Proof.
  revert acc. induction w as [|w IH]; intros acc.
  - change (fixed_digits 0 n) with "". cbn [digits_value]. change (pow10 0) with 1%Z.
    rewrite Z.mod_1_r. f_equal. lia.
  - rewrite fixed_digits_S. cbn [digits_value].
    rewrite char_digit_digit_char, IH. f_equal. rewrite pow10_S.
    pose proof (pow10_pos w) as Hp.
    rewrite (Z.mul_comm 10 (pow10 w)), Z.rem_mul_r by lia. ring.
Qed.

Lemma digits_value_app a b acc :
  digits_value acc (a ++ b) =
  match digits_value acc a with
  | Some v => digits_value v b
  | None => None
  end.
Proof.
  revert acc. induction a as [|c a IH]; intros acc; simpl; [reflexivity|].
  destruct (char_digit c); [apply IH | reflexivity].
Qed.

Lemma digits_value_stops a c b acc :
  is_digit c = false -> digits_value acc (a ++ String c b) = None.
Proof.
  intros Hc. rewrite digits_value_app. destruct (digits_value acc a); [|reflexivity].
  simpl. unfold is_digit in Hc. now destruct (char_digit c).
Qed.

Lemma lstrip_zeros_value s : digits_value 0 (lstrip_zeros s) = digits_value 0 s.
Proof.
  induction s as [|c s IH]; [reflexivity|]. simpl lstrip_zeros.
  destruct (Ascii.eqb_spec c "0") as [->|]; [|reflexivity].
  destruct s; [reflexivity|]. rewrite IH. reflexivity.
Qed.

Lemma lstrip_zeros_nonempty s : s <> "" -> lstrip_zeros s <> "".
Proof.
  induction s as [|c s IH]; [contradiction|]. intros _. simpl.
  destruct (c =? "0")%char; [|discriminate].
  destruct s; [discriminate|]. apply IH. discriminate.
Qed.

Lemma lstrip_zeros_forall P s :
  string_forall P s = true -> string_forall P (lstrip_zeros s) = true.
Proof.
  induction s as [|c s IH]; [reflexivity|]. simpl.
  destruct (c =? "0")%char; [|now intros H].
  destruct s; [now intros H|]. intros H. apply andb_true_iff in H as [_ H]. now apply IH.
Qed.

Lemma rstrip_zeros_forall P s :
  string_forall P s = true -> string_forall P (rstrip_zeros s) = true.
Proof.
  induction s as [|c s IH]; [reflexivity|]. simpl. intros H.
  apply andb_true_iff in H as [Hc Hs].
  destruct ((c =? "0")%char && (rstrip_zeros s =? "")); [reflexivity|].
  simpl. now rewrite Hc, IH.
Qed.

Lemma str_nat_digits n : string_forall is_digit (str_nat n) = true.
Proof. apply lstrip_zeros_forall, fixed_digits_digits. Qed.

Lemma str_nat_nonempty n : str_nat n <> "".
Proof. unfold str_nat. apply lstrip_zeros_nonempty. rewrite fixed_digits_S. discriminate. Qed.

Lemma pow10_log2 n : (0 <= n -> n < pow10 (S (Z.to_nat (Z.log2 n))))%Z.
Proof.
  intros Hn. destruct (Z.eq_dec n 0) as [->|Hz]; [reflexivity|].
  pose proof (Z.log2_nonneg n) as Hl.
  destruct (Z.log2_spec n ltac:(lia)) as [_ Hu].
  apply Z.lt_le_trans with (2 ^ Z.succ (Z.log2 n))%Z; [assumption|].
  unfold pow10. rewrite Nat2Z.inj_succ, Z2Nat.id by lia.
  apply Z.pow_le_mono_l. lia.
Qed.

Lemma parse_nat_str_nat n : (0 <= n)%Z -> parse_nat (str_nat n) = Some n.
Proof.
  intros Hn. unfold parse_nat. pose proof (str_nat_nonempty n) as Hne.
  destruct (str_nat n) eqn:E; [contradiction|]. rewrite <- E. unfold str_nat.
  rewrite lstrip_zeros_value, digits_value_fixed. f_equal.
  rewrite Z.mod_small; [lia|]. split; [assumption | now apply pow10_log2].
Qed.

Lemma split_sign_digit s : s <> "" -> string_forall is_digit s = true -> split_sign s = (false, s).
Proof.
  destruct s as [|c s]; [contradiction|]. intros _ H. simpl in H.
  apply andb_true_iff in H as [Hc _]. unfold split_sign.
  destruct (Ascii.eqb_spec c "-") as [->|Hne]; [discriminate|].
  destruct c as [[] [] [] [] [] [] [] []]; try reflexivity. contradiction.
Qed.

Lemma parse_Z_str_Z z : parse_Z (str_Z z) = Some z.
Proof.
  unfold str_Z, parse_Z. destruct (Z.ltb_spec z 0).
  - change (split_sign ("-" ++ str_nat (- z))) with (true, str_nat (- z)).
    cbv beta iota. rewrite parse_nat_str_nat by lia. cbn [option_map signed]. f_equal. lia.
  - rewrite split_sign_digit by (apply str_nat_nonempty || apply str_nat_digits).
    cbv beta iota. now rewrite parse_nat_str_nat.
Qed.

Lemma rstrip_zeros_value s acc v :
  digits_value acc s = Some v ->
  exists v' k,
    digits_value acc (rstrip_zeros s) = Some v' /\
    String.length s = (String.length (rstrip_zeros s) + k)%nat /\
    v = (v' * pow10 k)%Z.
Proof.
  revert acc. induction s as [|c s IH]; intros acc H.
  - exists acc, O. cbn [digits_value rstrip_zeros] in *. inversion H.
    repeat split. change (pow10 0) with 1%Z. lia.
  - cbn [digits_value] in H. destruct (char_digit c) as [d|] eqn:Ed; [|discriminate].
    destruct (IH _ H) as (v' & k & Hv & Hl & ->). cbn [rstrip_zeros].
    destruct (Ascii.eqb_spec c "0") as [->|Hc]; cbn [andb].
    + destruct (String.eqb_spec (rstrip_zeros s) "") as [E|E].
      * exists acc, (S k). rewrite E in *. cbn [digits_value String.length] in *.
        assert (d = 0%Z) by (vm_compute in Ed; congruence). subst d.
        inversion Hv; subst v'. repeat split; [lia|]. rewrite pow10_S. ring.
      * exists v', k. cbn [digits_value String.length]. rewrite Ed, Hl.
        repeat split. exact Hv.
    + exists v', k. cbn [digits_value String.length]. rewrite Ed, Hl.
      repeat split. exact Hv.
Qed.

Lemma split_on_none sep s :
  string_forall (other_than sep) s = true -> split_on sep s = [s].
Proof.
  induction s as [|c s IH]; simpl; [reflexivity|]. unfold other_than at 1.
  intros H. apply andb_true_iff in H as [Hc Hs].
  destruct (c =? sep)%char; [discriminate|]. now rewrite IH.
Qed.

Lemma split_on_app sep a b :
  string_forall (other_than sep) a = true ->
  split_on sep (a ++ String sep b) = a :: split_on sep b.
Proof.
  induction a as [|c a IH]; simpl.
  - intros _. now rewrite Ascii.eqb_refl.
  - unfold other_than at 1. intros H. apply andb_true_iff in H as [Hc Ha].
    destruct (c =? sep)%char; [discriminate|]. now rewrite IH.
Qed.

Lemma digit_other_than sep c :
  is_digit sep = false -> is_digit c = true -> other_than sep c = true.
Proof.
  intros Hs Hc. unfold other_than. destruct (Ascii.eqb_spec c sep) as [->|]; [congruence | reflexivity].
Qed.

Lemma digits_other_than sep s :
  is_digit sep = false -> string_forall is_digit s = true ->
  string_forall (other_than sep) s = true.
Proof.
  intros Hs. apply string_forall_impl. intros c. now apply digit_other_than.
Qed.

Lemma split_sign_leading_digit a b :
  a <> "" -> string_forall is_digit a = true -> split_sign (a ++ b) = (false, a ++ b).
Proof.
  destruct a as [|c a]; [contradiction|]. intros _ H. simpl in H.
  apply andb_true_iff in H as [Hc _]. simpl. unfold split_sign.
  destruct c as [[] [] [] [] [] [] [] []]; try reflexivity; discriminate Hc.
Qed.

Lemma parse_nat_digits s v : s <> "" -> digits_value 0 s = Some v -> parse_nat s = Some v.
Proof. destruct s; [contradiction | trivial]. Qed.

(** The fraction digits that [repr_dec] prints: their value and count. *)
Lemma fraction_digits s a :
  let frac := rstrip_zeros (fixed_digits s a) in
  let shown := if frac =? "" then "0" else frac in
  exists f,
    parse_nat shown = Some f /\
    string_forall is_digit shown = true /\
    ((a mod pow10 s) * pow10 (String.length shown) = f * pow10 s)%Z.
Proof.
  intros frac shown.
  destruct (rstrip_zeros_value _ _ _ (digits_value_fixed s a 0)) as (v' & k & Hv & Hl & E).
  rewrite fixed_digits_length in Hl. fold frac in Hv, Hl.
  rewrite Z.mul_0_l, Z.add_0_l in E.
  assert (D : string_forall is_digit frac = true)
    by apply rstrip_zeros_forall, fixed_digits_digits.
  subst shown. destruct (String.eqb_spec frac "") as [Ef|Ef].
  - rewrite Ef in *. cbn [digits_value] in Hv. inversion Hv; subst v'.
    exists 0%Z. repeat split. rewrite E. ring.
  - exists v'. split; [now apply parse_nat_digits|]. split; [assumption|].
    rewrite E, Hl, pow10_add. ring.
Qed.

Lemma parse_dec_repr_dec x : exists y, parse_dec (repr_dec x) = Some y /\ dec_eq y x.
Proof.
  destruct x as [m s]. unfold repr_dec. cbn [mant scale].
  set (a := Z.abs m). set (ip := (a / pow10 s)%Z).
  pose proof (pow10_pos s) as Hp.
  assert (Hip : (0 <= ip)%Z) by (apply Z.div_pos; lia).
  destruct (fraction_digits s a) as (f & Hf & Df & Hmod).
  set (shown := if rstrip_zeros (fixed_digits s a) =? "" then "0"
                else rstrip_zeros (fixed_digits s a)) in *.
  set (neg := (m <? 0)%Z).
  assert (Hsplit : split_on "." (str_nat ip ++ "." ++ shown) = [str_nat ip; shown]).
  { change ("." ++ shown) with (String "." shown).
    rewrite split_on_app by (apply digits_other_than; [reflexivity | apply str_nat_digits]).
    now rewrite split_on_none by (apply digits_other_than; [reflexivity | assumption]). }
  assert (Hs : split_sign ((if neg then "-" else "") ++ str_nat ip ++ "." ++ shown) =
               (neg, str_nat ip ++ "." ++ shown)).
  { destruct neg; [reflexivity|]. change ("" ++ ?x) with x.
    apply split_sign_leading_digit; [apply str_nat_nonempty | apply str_nat_digits]. }
  exists (Dec (signed neg (ip * pow10 (String.length shown) + f)) (String.length shown)).
  split.
  - unfold parse_dec. rewrite Hs, Hsplit, (parse_nat_str_nat ip Hip), Hf. reflexivity.
  - unfold dec_eq. cbn [mant scale].
    pose proof (Z.div_mod a (pow10 s) ltac:(lia)) as Ea. fold ip in Ea.
    assert (Em : m = signed neg a).
    { subst neg a. unfold signed. destruct (Z.ltb_spec m 0); lia. }
    rewrite Em. set (L := pow10 (String.length shown)) in *.
    set (P := pow10 s) in *. set (r := (a mod P)%Z) in *.
    assert (Hgoal : ((ip * L + f) * P = a * L)%Z).
    { rewrite Ea. replace ((ip * L + f) * P)%Z with (P * ip * L + f * P)%Z by ring.
      rewrite <- Hmod. ring. }
    unfold signed. destruct neg; lia.
Qed.

(** ** Fields of the CSV *)

Lemma digit_plain c : is_digit c = true -> plain c = true.
Proof. intros H. unfold plain. now rewrite H. Qed.

Lemma digits_plain s : string_forall is_digit s = true -> string_forall plain s = true.
Proof. apply string_forall_impl, digit_plain. Qed.

Lemma plain_other_than sep s :
  plain sep = false -> string_forall plain s = true ->
  string_forall (other_than sep) s = true.
Proof.
  intros Hs. apply string_forall_impl. intros c Hc. unfold other_than.
  destruct (Ascii.eqb_spec c sep) as [->|]; [congruence | reflexivity].
Qed.

(** Prove that a concatenation of digit runs and literals stays in a class. *)
Ltac digit_run :=
  lazymatch goal with
  | |- string_forall is_digit (fixed_digits _ _) = true => apply fixed_digits_digits
  | |- string_forall is_digit (str_nat _) = true => apply str_nat_digits
  | |- string_forall plain (fixed_digits _ _) = true =>
      apply digits_plain, fixed_digits_digits
  | |- string_forall plain (str_nat _) = true => apply digits_plain, str_nat_digits
  | |- string_forall _ _ = true => reflexivity
  end.

Ltac digit_runs :=
  repeat (rewrite string_forall_app; apply andb_true_iff; split); digit_run.

Lemma format_date_plain d : string_forall plain (format_date d) = true.
Proof. unfold format_date. digit_runs. Qed.

Lemma format_time_plain t : string_forall plain (format_time t) = true.
Proof. unfold format_time. digit_runs. Qed.

Ltac chars_atom :=
  lazymatch goal with
  | |- string_forall plain (format_date _) = true => apply format_date_plain
  | |- string_forall plain (format_time _) = true => apply format_time_plain
  | |- _ => digit_run
  end.

Ltac chars :=
  repeat (rewrite string_forall_app; apply andb_true_iff; split); chars_atom.

Lemma format_datetime_plain fmt t : string_forall plain (format_datetime fmt t) = true.
Proof.
  destruct fmt; unfold format_datetime; chars.
Qed.

Lemma str_Z_plain z : string_forall plain (str_Z z) = true.
Proof. unfold str_Z. destruct (z <? 0)%Z; chars. Qed.

Lemma repr_dec_plain x : string_forall plain (repr_dec x) = true.
Proof.
  unfold repr_dec.
  repeat (rewrite string_forall_app; apply andb_true_iff; split).
  - now destruct (mant x <? 0)%Z.
  - chars.
  - reflexivity.
  - destruct (_ =? ""); [reflexivity|].
    apply digits_plain, rstrip_zeros_forall, fixed_digits_digits.
Qed.

Lemma csv_record_plain fmt r :
  Forall (fun f => string_forall plain f = true) (csv_record fmt r).
Proof.
  unfold csv_record.
  repeat constructor;
    auto using format_date_plain, format_datetime_plain, repr_dec_plain, str_Z_plain.
Qed.

(** ** Lines and fields *)

Lemma join_cons sep f g fs : join sep (f :: g :: fs) = f ++ sep ++ join sep (g :: fs).
Proof. reflexivity. Qed.

Lemma split_on_join sep fs :
  fs <> [] -> Forall (fun f => string_forall (other_than sep) f = true) fs ->
  split_on sep (join (String sep "") fs) = fs.
Proof.
  intros Hne H. induction H as [|f fs Hf Hfs IH]; [contradiction|].
  destruct fs as [|g fs].
  - simpl. now apply split_on_none.
  - rewrite join_cons. change (String sep "" ++ join (String sep "") (g :: fs))
      with (String sep (join (String sep "") (g :: fs))).
    rewrite split_on_app by assumption. f_equal. apply IH. discriminate.
Qed.

Lemma join_forall P sep fs :
  string_forall P sep = true -> Forall (fun f => string_forall P f = true) fs ->
  string_forall P (join sep fs) = true.
Proof.
  intros Hs H. induction H as [|f fs Hf Hfs IH]; [reflexivity|].
  destruct fs as [|g fs]; [exact Hf|].
  rewrite join_cons, !string_forall_app, Hf, Hs. exact IH.
Qed.

Lemma split_on_unlines ls :
  Forall (fun l => string_forall (other_than nl) l = true) ls ->
  split_on nl (unlines ls) = (ls ++ [""])%list.
Proof.
  induction 1 as [|l ls Hl Hls IH]; [reflexivity|].
  simpl unlines. rewrite split_on_app by assumption. now rewrite IH.
Qed.

Lemma filter_nonblank ls :
  Forall (fun l => l <> "") ls -> List.filter nonblank (ls ++ [""])%list = ls.
Proof.
  induction 1 as [|l ls Hl Hls IH]; [reflexivity|]. simpl.
  unfold nonblank at 1. destruct (String.eqb_spec l ""); [contradiction|].
  simpl. now rewrite IH.
Qed.

Lemma csv_line_safe fmt r :
  string_forall (other_than nl) (join "," (csv_record fmt r)) = true /\
  join "," (csv_record fmt r) <> "" /\
  split_on "," (join "," (csv_record fmt r)) = csv_record fmt r.
Proof.
  pose proof (csv_record_plain fmt r) as Hplain. split; [|split].
  - apply join_forall; [reflexivity|].
    eapply List.Forall_impl; [|exact Hplain]. intros f. now apply plain_other_than.
  - unfold csv_record. rewrite join_cons. unfold format_date.
    rewrite fixed_digits_S. discriminate.
  - apply split_on_join; [discriminate|].
    eapply List.Forall_impl; [|exact Hplain]. intros f. now apply plain_other_than.
Qed.

(** What [read_csv] makes of the file that [to_csv] wrote. *)
Lemma read_csv_to_csv df :
  let fmt := column_format (map datetime df) in
  read_csv (to_csv df) =
  Ok [("date", infer_column (map (fun r => format_date (date r)) df));
      ("datetime", infer_column (map (fun r => format_datetime fmt (datetime r)) df));
      ("price", infer_column (map (fun r => repr_dec (price r)) df));
      ("market_cap", infer_column (map (fun r => str_Z (market_cap r)) df));
      ("volume", infer_column (map (fun r => str_Z (volume r)) df))].
Proof.
  intros fmt. unfold read_csv, to_csv. fold fmt.
  rewrite split_on_unlines.
  2:{ constructor; [reflexivity|]. apply List.Forall_forall. intros l Hl.
      apply in_map_iff in Hl as (r & <- & _). apply csv_line_safe. }
  rewrite filter_nonblank.
  2:{ constructor; [discriminate|]. apply List.Forall_forall. intros l Hl.
      apply in_map_iff in Hl as (r & <- & _). apply csv_line_safe. }
  change (split_on "," (join "," csv_header)) with csv_header.
  rewrite map_map.
  assert (E : map (fun r => split_on "," (join "," (csv_record fmt r))) df =
              map (csv_record fmt) df).
  { apply map_ext. intros r. apply csv_line_safe. }
  rewrite E.
  replace (forallb _ (map (csv_record fmt) df)) with true.
  2:{ symmetry. apply forallb_forall. intros rec Hrec.
      apply in_map_iff in Hrec as (r & <- & _). reflexivity. }
  simpl. rewrite !map_map. reflexivity.
Qed.

(** ** Column types of the file read back *)

Lemma traverse_map_some {A B C} (f : B -> option C) (g : A -> B) (h : A -> C) l :
  (forall a, In a l -> f (g a) = Some (h a)) -> traverse f (map g l) = Some (map h l).
Proof.
  induction l as [|a l IH]; intros H; [reflexivity|]. cbn [map traverse].
  rewrite (H a) by now left. cbn [option_bind].
  rewrite IH by (intros b Hb; apply H; now right). reflexivity.
Qed.

Lemma traverse_head_none {A B} (f : A -> option B) a l :
  f a = None -> traverse f (a :: l) = None.
Proof. intros H. cbn [traverse]. now rewrite H. Qed.

Lemma parse_nat_stops a c b : is_digit c = false -> parse_nat (a ++ String c b) = None.
Proof.
  intros Hc. pose proof (digits_value_stops a c b 0 Hc) as H.
  destruct a; exact H.
Qed.

Lemma string_forall_cons P c s : string_forall P (String c s) = P c && string_forall P s.
Proof. reflexivity. Qed.

Ltac sep_free :=
  lazymatch goal with
  | |- string_forall _ (_ ++ _) = true =>
      rewrite string_forall_app; apply andb_true_iff; split; sep_free
  | |- string_forall (other_than _) (fixed_digits _ _) = true =>
      apply digits_other_than; [reflexivity | apply fixed_digits_digits]
  | |- string_forall (other_than _) (str_nat _) = true =>
      apply digits_other_than; [reflexivity | apply str_nat_digits]
  | |- string_forall _ (String _ _) = true =>
      rewrite string_forall_cons; apply andb_true_iff; split; [reflexivity | sep_free]
  | |- string_forall _ _ = true => reflexivity
  end.

Lemma format_date_shape d :
  format_date d = fixed_digits 4 (year d) ++ String "-" (fixed_digits 2 (month d) ++
                  String "-" (fixed_digits 2 (day d))).
Proof. reflexivity. Qed.

Lemma fixed_digits_nonempty w n : fixed_digits (S w) n <> "".
Proof. rewrite fixed_digits_S. discriminate. Qed.

Lemma parse_nat_fixed w n : parse_nat (fixed_digits (S w) n) = Some (n mod pow10 (S w))%Z.
Proof.
  apply parse_nat_digits; [apply fixed_digits_nonempty|].
  rewrite digits_value_fixed. f_equal.
Qed.

Lemma format_date_no_space d : string_forall (other_than " ") (format_date d) = true.
Proof. unfold format_date. sep_free. Qed.

Lemma format_date_no_point d : string_forall (other_than ".") (format_date d) = true.
Proof. unfold format_date. sep_free. Qed.

Lemma format_time_no_space t : string_forall (other_than " ") (format_time t) = true.
Proof. unfold format_time. sep_free. Qed.

Lemma format_time_no_point t : string_forall (other_than ".") (format_time t) = true.
Proof. unfold format_time. sep_free. Qed.

Lemma parse_date_format_date d : exists d', parse_date (format_date d) = Some d'.
Proof.
  unfold parse_date. rewrite format_date_shape.
  rewrite split_on_app by sep_free. rewrite split_on_app by sep_free.
  rewrite split_on_none by sep_free.
  rewrite !parse_nat_fixed. cbn [option_bind]. eauto.
Qed.

Lemma format_time_shape t tail :
  format_time t ++ tail =
  fixed_digits 2 (t mod ms_per_day / 3600000) ++ String ":"
    (fixed_digits 2 (t mod ms_per_day / 60000 mod 60) ++ String ":"
       (fixed_digits 2 (t mod ms_per_day / 1000 mod 60) ++ tail)).
Proof. unfold format_time. rewrite !append_assoc. reflexivity. Qed.

Lemma parse_time_format_time t : exists ns, parse_time (format_time t) = Some ns.
Proof.
  unfold parse_time. rewrite <- (append_nil_r (format_time t)), format_time_shape.
  rewrite append_nil_r.
  rewrite split_on_app by sep_free. rewrite split_on_app by sep_free.
  rewrite split_on_none by sep_free.
  rewrite !parse_nat_fixed. cbn [option_bind].
  unfold parse_seconds. rewrite split_on_none by sep_free.
  rewrite parse_nat_fixed. cbn [option_bind]. eauto.
Qed.

Lemma parse_time_millis t ms :
  exists ns, parse_time (format_time t ++ "." ++ fixed_digits 3 ms) = Some ns.
Proof.
  unfold parse_time. rewrite format_time_shape.
  change ("." ++ fixed_digits 3 ms) with (String "." (fixed_digits 3 ms)).
  rewrite split_on_app by sep_free. rewrite split_on_app by sep_free.
  rewrite split_on_none by sep_free.
  rewrite !parse_nat_fixed. cbn [option_bind].
  unfold parse_seconds.
  rewrite split_on_app by sep_free. rewrite split_on_none by sep_free.
  rewrite !parse_nat_fixed. cbn [option_bind].
  rewrite fixed_digits_length. cbn [Nat.leb]. eauto.
Qed.

Lemma parse_timestamp_format_date d : exists ns, parse_timestamp (format_date d) = Some ns.
Proof.
  unfold parse_timestamp. rewrite split_on_none by apply format_date_no_space.
  destruct (parse_date_format_date d) as (d' & ->). cbn [option_bind]. eauto.
Qed.

Lemma parse_timestamp_format_datetime fmt t :
  exists ns, parse_timestamp (format_datetime fmt t) = Some ns.
Proof.
  destruct fmt; unfold format_datetime.
  - apply parse_timestamp_format_date.
  - unfold parse_timestamp. change (" " ++ ?x) with (String " " x).
    rewrite split_on_app by apply format_date_no_space.
    rewrite split_on_none by apply format_time_no_space.
    destruct (parse_date_format_date (date_of_ms t)) as (d' & ->).
    destruct (parse_time_format_time t) as (ns & ->). cbn [option_bind]. eauto.
  - unfold parse_timestamp. change (" " ++ ?x) with (String " " x).
    rewrite split_on_app by apply format_date_no_space.
    rewrite split_on_none.
    2:{ rewrite string_forall_app, format_time_no_space. cbn [andb]. sep_free. }
    destruct (parse_date_format_date (date_of_ms t)) as (d' & ->).
    destruct (parse_time_millis t (t mod 1000)) as (ns & ->). cbn [option_bind]. eauto.
Qed.

(** A date or a timestamp is neither an integer nor a decimal literal. *)
Lemma dated_not_number d rest :
  string_forall (other_than ".") rest = true \/
  (exists a b, rest = a ++ String "." b /\ string_forall (other_than ".") a = true /\
               string_forall (other_than ".") b = true) ->
  parse_Z (format_date d ++ rest) = None /\ parse_dec (format_date d ++ rest) = None.
Proof.
  intros Hrest.
  assert (Hs : split_sign (format_date d ++ rest) = (false, format_date d ++ rest)).
  { rewrite format_date_shape, append_assoc.
    apply split_sign_leading_digit; [apply fixed_digits_nonempty | apply fixed_digits_digits]. }
  assert (Hn : forall tail, parse_nat (format_date d ++ tail) = None).
  { intros tail. rewrite format_date_shape, append_assoc. cbn [String.append].
    now apply parse_nat_stops. }
  split.
  - unfold parse_Z. rewrite Hs, Hn. reflexivity.
  - unfold parse_dec. rewrite Hs. destruct Hrest as [H|(a & b & -> & Ha & Hb)].
    + rewrite split_on_none by (rewrite string_forall_app, format_date_no_point; exact H).
      now rewrite Hn.
    + rewrite <- append_assoc. rewrite split_on_app
        by (rewrite string_forall_app, format_date_no_point; exact Ha).
      rewrite split_on_none by exact Hb. now rewrite Hn.
Qed.

Lemma format_date_not_number d :
  parse_Z (format_date d) = None /\ parse_dec (format_date d) = None.
Proof.
  rewrite <- (append_nil_r (format_date d)). apply dated_not_number. now left.
Qed.

Lemma format_datetime_not_number fmt t :
  parse_Z (format_datetime fmt t) = None /\ parse_dec (format_datetime fmt t) = None.
Proof.
  destruct fmt; unfold format_datetime.
  - apply format_date_not_number.
  - apply dated_not_number. left. rewrite string_forall_app, format_time_no_point. reflexivity.
  - apply dated_not_number. right.
    exists (" " ++ format_time t), (fixed_digits 3 (t mod 1000)).
    split; [now rewrite !append_assoc|]. split.
    + rewrite string_forall_app, format_time_no_point. reflexivity.
    + sep_free.
Qed.

Lemma infer_column_text {A} (f : A -> string) l :
  (forall a, parse_Z (f a) = None /\ parse_dec (f a) = None) ->
  infer_column (map f l) = ObjCol (map f l).
Proof.
  intros H. destruct l as [|a l]; [reflexivity|]. unfold infer_column. cbn [map].
  rewrite !traverse_head_none by apply H. reflexivity.
Qed.

Lemma infer_column_ints {A} (f : A -> Z) l :
  infer_column (map (fun a => str_Z (f a)) l) =
  match l with [] => ObjCol [] | _ => IntCol (map f l) end.
Proof.
  destruct l as [|a l]; [reflexivity|]. unfold infer_column.
  rewrite (traverse_map_some parse_Z (fun a => str_Z (f a)) f)
    by (intros; apply parse_Z_str_Z).
  reflexivity.
Qed.

Lemma parse_Z_repr_dec x : parse_Z (repr_dec x) = None.
Proof.
  unfold repr_dec, parse_Z.
  set (body := str_nat _ ++ "." ++ _).
  assert (Hs : split_sign ((if (mant x <? 0)%Z then "-" else "") ++ body) =
               ((mant x <? 0)%Z, body)).
  { destruct (mant x <? 0)%Z; [reflexivity|]. change ("" ++ body) with body.
    apply split_sign_leading_digit; [apply str_nat_nonempty | apply str_nat_digits]. }
  rewrite Hs. subst body. change ("." ++ ?s) with (String "." s).
  now rewrite parse_nat_stops.
Qed.

Lemma traverse_parse_dec {A} (f : A -> dec) l :
  exists ys, traverse parse_dec (map (fun a => repr_dec (f a)) l) = Some ys /\
             Forall2 dec_eq ys (map f l).
Proof.
  induction l as [|a l (ys & E & H)]; [exists []; split; [reflexivity | constructor]|].
  destruct (parse_dec_repr_dec (f a)) as (y & Ey & Hy).
  exists (y :: ys). cbn [map traverse]. rewrite Ey, E. split; [reflexivity|].
  now constructor.
Qed.

Lemma infer_column_decs {A} (f : A -> dec) l :
  exists ys,
    infer_column (map (fun a => repr_dec (f a)) l) =
    match l with [] => ObjCol [] | _ => FloatCol ys end /\
    Forall2 dec_eq ys (map f l).
Proof.
  destruct (traverse_parse_dec f l) as (ys & E & H). exists ys. split; [|exact H].
  destruct l as [|a l]; [reflexivity|]. unfold infer_column.
  rewrite E. cbn [map]. rewrite traverse_head_none by apply parse_Z_repr_dec. reflexivity.
Qed.

Lemma to_datetime_text {A} (f : A -> string) l :
  (forall a, exists ns, parse_timestamp (f a) = Some ns) ->
  exists ts, to_datetime (ObjCol (map f l)) = Ok (TimeCol ts) /\ length ts = length l.
Proof.
  intros H. unfold to_datetime.
  assert (E : exists ts, traverse parse_timestamp (map f l) = Some ts /\ length ts = length l).
  { induction l as [|a l (ts & E & L)]; [now exists []|].
    destruct (H a) as (ns & Ens). exists (ns :: ts). cbn [map traverse].
    rewrite Ens, E. split; [reflexivity|]. simpl. now rewrite L. }
  destruct E as (ts & -> & L). now exists ts.
Qed.

(** ** Saving and loading the processed frame *)

Local Open Scope list_scope.
Local Open Scope Z_scope.

Lemma dec_eq_Q x y : dec_eq x y -> (dec_to_Q x == dec_to_Q y)%Q.
Proof.
  unfold dec_eq, dec_to_Q, Qeq. cbn [Qnum Qden]. intros H.
  pose proof (pow10_pos (scale x)). pose proof (pow10_pos (scale y)).
  now rewrite !Z2Pos.id by assumption.
Qed.

Lemma save_processed_data_spec df w :
  Collector.save_processed_data df w = (Ok processed_csv, saved df w).
Proof. reflexivity. Qed.

Lemma read_saved df w : read_file processed_csv (saved df w) = (Ok (to_csv df), saved df w).
Proof.
  unfold read_file, saved. cbn [fs]. now rewrite lookup_insert_eq.
Qed.

Lemma load_data_saved (df : list row) (w : world) :
  exists ts1 ts2 cp,
    Reporter.load_data (saved df w) =
      (Ok (Some [("date", TimeCol ts1); ("datetime", TimeCol ts2); ("price", cp);
                 ("market_cap", match df with [] => ObjCol [] | _ => IntCol (map market_cap df) end);
                 ("volume", match df with [] => ObjCol [] | _ => IntCol (map volume df) end)]),
       saved df w) /\
    length ts1 = length df /\
    exists ys, cp = match df with [] => ObjCol [] | _ => FloatCol ys end /\
               Forall2 dec_eq ys (map price df).
Proof.
  set (fmt := column_format (map datetime df)).
  destruct (to_datetime_text (fun r => format_date (date r)) df
              (fun r => parse_timestamp_format_date (date r))) as (ts1 & E1 & L1).
  destruct (to_datetime_text (fun r => format_datetime fmt (datetime r)) df
              (fun r => parse_timestamp_format_datetime fmt (datetime r))) as (ts2 & E2 & L2).
  destruct (infer_column_decs price df) as (ys & Ep & Hys).
  exists ts1, ts2, (infer_column (map (fun r => repr_dec (price r)) df)).
  split; [|split; [exact L1 | exists ys; now split]].
  unfold Reporter.load_data, try_except, mbind.
  rewrite read_saved. unfold lift. rewrite read_csv_to_csv. fold fmt.
  rewrite (infer_column_text (fun r => format_date (date r)))
    by (intros r; apply format_date_not_number).
  rewrite (infer_column_text (fun r => format_datetime fmt (datetime r)))
    by (intros r; apply format_datetime_not_number).
  rewrite !infer_column_ints.
  cbn [getitem String.eqb Ascii.eqb Bool.eqb bind]. rewrite E1.
  cbn [setitem getitem String.eqb Ascii.eqb Bool.eqb bind]. rewrite E2.
  reflexivity.
Qed.

(** C6: a processed frame written by save_processed_data and read back by
    load_data has the same rows in the same order: the price column holds
    numbers equal to the prices written, the market_cap and volume columns
    hold the integers written. *)
Theorem C6_csv_round_trip (rows : list row) (w : world) :
  exists csv_file w1 df cp cm cv ps,
    Collector.save_processed_data rows w = (Ok csv_file, w1) /\
    fs w1 !! csv_file = Some (to_csv rows) /\
    Reporter.load_data w1 = (Ok (Some df), w1) /\
    getitem "price" df = Ok cp /\
    getitem "market_cap" df = Ok cm /\
    getitem "volume" df = Ok cv /\
    column_values cp = Some ps /\
    Forall2 Qeq ps (map (fun r => dec_to_Q (price r)) rows) /\
    column_values cm = Some (map (fun r => inject_Z (market_cap r)) rows) /\
    column_values cv = Some (map (fun r => inject_Z (volume r)) rows).
Proof.
  destruct (load_data_saved rows w) as (ts1 & ts2 & cp & Hload & _ & ys & Hcp & Hys).
  exists processed_csv, (saved rows w). eexists. exists cp. eexists. eexists.
  exists (map dec_to_Q ys).
  split; [apply save_processed_data_spec|].
  split; [unfold saved; cbn [fs]; apply lookup_insert_eq|].
  split; [exact Hload|].
  split; [reflexivity|]. split; [reflexivity|]. split; [reflexivity|].
  split; [|split; [|split]].
  - subst cp. destruct rows; [|reflexivity]. inversion Hys. reflexivity.
  - rewrite <- (map_map price dec_to_Q). clear -Hys.
    induction Hys; cbn [map]; constructor; [now apply dec_eq_Q | assumption].
  - destruct rows; [reflexivity|]. cbn [column_values]. now rewrite map_map.
  - destruct rows; [reflexivity|]. cbn [column_values]. now rewrite map_map.
Qed.

Lemma nrows_saved df : exists frame, read_csv (to_csv df) = Ok frame /\ nrows frame = length df.
Proof.
  eexists. split; [apply read_csv_to_csv|]. cbn [nrows].
  rewrite (infer_column_text (fun r => format_date (date r)))
    by (intros r; apply format_date_not_number).
  cbn [column_length]. apply length_map.
Qed.

(** ** C9 *)

Lemma create_datapackage_saved (json_dumps : json -> string) (rows : list row) (w : world) :
  exists w2,
    Collector.create_datapackage json_dumps processed_csv (saved rows w) = (Ok tt, w2) /\
    fs w2 !! descriptor_path =
      Some (json_dumps (datapackage (isoformat (clock w2)) (Z.of_nat (length rows) * 100))) /\
    (forall path, path <> descriptor_path -> fs w2 !! path = fs (saved rows w) !! path) /\
    dirs w2 = dirs (saved rows w) /\ clock w2 = clock w.
Proof.
  destruct (nrows_saved rows) as (frame & Hread & Hn). eexists. split.
  - unfold Collector.create_datapackage, mbind. rewrite read_saved.
    unfold lift. rewrite Hread. unfold now, write_file. rewrite Hn. reflexivity.
  - cbn [fs dirs clock]. split; [apply lookup_insert_eq|].
    split; [|split; reflexivity]. intros path Hp. now apply lookup_insert_ne.
Qed.

(** C9: after save_processed_data has written the CSV, create_datapackage
    reads that file back and writes the descriptor to the one path
    datapackage.json, replacing whatever was there and touching no other
    file; the size it records is one hundred times the number of rows just
    written. *)
Theorem C9_descriptor (json_dumps : json -> string) (rows : list row) (w : world) :
  exists csv_file w1 w2,
    Collector.save_processed_data rows w = (Ok csv_file, w1) /\
    Collector.create_datapackage json_dumps csv_file w1 = (Ok tt, w2) /\
    let descriptor := datapackage (isoformat (clock w1)) (Z.of_nat (length rows) * 100) in
    fs w2 !! descriptor_path = Some (json_dumps descriptor) /\
    resource_bytes descriptor = Some [JsNumber (dec_of_Z (Z.of_nat (length rows) * 100))] /\
    (forall path, path <> descriptor_path -> fs w2 !! path = fs w1 !! path) /\
    dirs w2 = dirs w1.
Proof.
  destruct (create_datapackage_saved json_dumps rows w) as (w2 & Hpkg & Hdesc & Hother & Hdirs & Hclock).
  exists processed_csv, (saved rows w), w2.
  split; [apply save_processed_data_spec|]. split; [exact Hpkg|].
  cbn zeta. split; [now rewrite Hdesc, Hclock|]. split; [reflexivity|].
  split; [exact Hother | exact Hdirs].
Qed.

(** ** C7 *)

(** C7: when the processed CSV does not exist, load_data returns None
    instead of raising, and main returns 1 leaving the world as it found
    it: no directory is made and no chart or report is written. *)
Theorem C7_missing_csv (to_json to_html : Figure -> string) (w : world) :
  fs w !! processed_csv = None ->
  Reporter.load_data w = (Ok None, w) /\
  Reporter.main to_json to_html w = (Ok 1, w) /\
  exit_status (fst (Reporter.main to_json to_html w)) = 1.
Proof.
  intros H.
  assert (L : Reporter.load_data w = (Ok None, w)).
  { unfold Reporter.load_data, try_except, mbind, read_file. now rewrite H. }
  assert (E : Reporter.main to_json to_html w = (Ok 1, w)).
  { unfold Reporter.main, mbind. now rewrite L. }
  split; [exact L|]. split; [exact E|]. now rewrite E.
Qed.

(** C7 in the world without files. *)
Lemma C7_missing_csv_witness :
  Reporter.main (fun _ => "") (fun _ => "") empty_world = (Ok 1, empty_world).
Proof.
  apply (C7_missing_csv (fun _ => "") (fun _ => "") empty_world). apply lookup_empty.
Defined.

(** ** C10 *)

Lemma price_aggregates_empty df : nrows df = 0%nat -> price_aggregates df = Raise IndexError.
Proof. intros H. unfold price_aggregates. now rewrite H. Qed.

(** C10: on a frame without rows create_summary_stats raises IndexError,
    so it returns statistics only for a frame with at least one row; and
    the reporter, given a CSV that holds the header and no record, ends
    with that error (exit status 1) after making its directory and before
    writing any chart or report. *)
Theorem C10_empty_series :
  (forall df, nrows df = 0%nat -> create_summary_stats df = Raise IndexError) /\
  (forall df stats, create_summary_stats df = Ok stats -> nrows df <> 0%nat) /\
  (forall (to_json to_html : Figure -> string) (w : world),
     fs w !! processed_csv = Some (to_csv []) ->
     exists w',
       Reporter.main to_json to_html w = (Raise IndexError, w') /\
       exit_status (fst (Reporter.main to_json to_html w)) = 1 /\
       fs w' = fs w /\ dirs w' = {["visualizations"%string]} ∪ dirs w).
Proof.
  assert (Hempty : forall df, nrows df = 0%nat -> create_summary_stats df = Raise IndexError).
  { intros df H. unfold create_summary_stats. now rewrite price_aggregates_empty. }
  split; [exact Hempty|]. split.
  - intros df stats H Hn. rewrite (Hempty df Hn) in H. discriminate.
  - intros to_json to_html w H. eexists.
    assert (E : Reporter.main to_json to_html w =
                (Raise IndexError,
                 World (fs w) ({["visualizations"%string]} ∪ dirs w) (clock w) (replies w) (sent w))).
    { unfold Reporter.main, Reporter.load_data, try_except, mbind, read_file.
      rewrite H. reflexivity. }
    split; [exact E|]. rewrite E. repeat split.
Qed.

(** A collector run whose arrays share no timestamp writes a CSV with the
    header alone before it ends with status 1; the reporter then fails on
    that file.  A file of zero bytes fails earlier, in the read. *)
Example empty_run_then_report :
  let run := Collector.main (fun _ => ""%string) disjoint_days in
  fst run = Ok 1 /\
  fs (snd run) !! processed_csv = Some (to_csv []) /\
  fst (Reporter.main (fun _ => ""%string) (fun _ => ""%string) (snd run)) = Raise IndexError.
Proof. vm_compute. repeat split. Qed.

Example zero_byte_csv :
  fst (Reporter.main (fun _ => ""%string) (fun _ => ""%string)
         (World {[processed_csv := ""%string]} ∅ 0 [] [])) = Raise EmptyDataError.
Proof. vm_compute. reflexivity. Qed.

(** C10 on a frame whose columns are empty. *)
Lemma C10_empty_series_witness :
  create_summary_stats [("date", ObjCol []); ("price", ObjCol [])] = Raise IndexError.
Proof.
  destruct C10_empty_series as (H & _). apply H. reflexivity.
Defined.

(** ** C8 *)




Section Abort.
Variable json_dumps : json -> string.

Lemma main_aborts_on_current w e w1 :
  collect_current_price w = (Raise e, w1) -> Collector.main json_dumps w = (Ok 1, w1).
Proof. intros H. unfold Collector.main, try_except, mbind. now rewrite H. Qed.

Lemma main_aborts_on_historical w q p w1 e w2 :
  collect_current_price w = (Ok q, w1) -> dict_get "usd" q = Ok p ->
  collect_historical_prices 365 (snd (sleep 1 w1)) = (Raise e, w2) ->
  Collector.main json_dumps w = (Ok 1, w2).
Proof.
  intros H1 Hp H2. unfold Collector.main, try_except, mbind.
  rewrite H1. unfold lift. rewrite Hp. cbn [sleep snd] in *. now rewrite H2.
Qed.

End Abort.



(** ** Frames read from a file are well formed *)

Lemma traverse_length {A B} (f : A -> option B) l ys :
  traverse f l = Some ys -> length ys = length l.
Proof.
  revert ys. induction l as [|a l IH]; intros ys H; cbn [traverse] in H.
  - now inversion H.
  - destruct (f a); [|discriminate]. cbn [option_bind] in H.
    destruct (traverse f l) as [bs|]; [|discriminate]. cbn [option_bind] in H.
    inversion H. cbn [length]. now rewrite (IH bs).
Qed.

Lemma infer_column_length cells : column_length (infer_column cells) = length cells.
Proof.
  unfold infer_column. destruct cells as [|c cells]; [reflexivity|].
  destruct (traverse parse_Z (c :: cells)) as [zs|] eqn:Ez.
  - apply (traverse_length _ _ _ Ez).
  - destruct (traverse parse_dec (c :: cells)) as [ds|] eqn:Ed; [|reflexivity].
    apply (traverse_length _ _ _ Ed).
Qed.

Lemma read_csv_wf text df : read_csv text = Ok df -> frame_wf df.
Proof.
  unfold read_csv. destruct (List.filter nonblank (split_on nl text)) as [|header lines];
    [discriminate|].
  destruct (forallb _ _); [|discriminate]. intros H. inversion H; subst df; clear H.
  set (records := map (split_on ",") lines).
  assert (Hall : Forall (fun nc : string * column => column_length (snd nc) = length records)
                   (map (fun jn : nat * string =>
                           (snd jn, infer_column (map (fun r => nth (fst jn) r ""%string) records)))
                        (combine (seq 0 (length (split_on "," header)))
                                 (split_on "," header)))).
  { apply List.Forall_forall. intros nc Hnc. apply in_map_iff in Hnc as (jn & <- & _).
    cbn [snd]. now rewrite infer_column_length, length_map. }
  unfold frame_wf. destruct Hall as [|nc df' Hnc Hdf']; [constructor|].
  assert (Hn : nrows (nc :: df') = length records) by (destruct nc; exact Hnc).
  rewrite Hn. constructor; assumption.
Qed.

Lemma to_datetime_length c c' : to_datetime c = Ok c' -> column_length c' = column_length c.
Proof.
  destruct c as [l|l|l|l]; cbn [to_datetime]; intros H.
  - now inversion H.
  - inversion H. cbn [column_length]. apply length_map.
  - destruct (traverse parse_timestamp l) as [ts|] eqn:E; [|discriminate].
    inversion H. cbn [column_length]. apply (traverse_length _ _ _ E).
  - now inversion H.
Qed.

Lemma setitem_wf name c df :
  frame_wf df -> column_length c = nrows df ->
  frame_wf (setitem name c df) /\ nrows (setitem name c df) = nrows df.
Proof.
  unfold frame_wf. intros WF Hc.
  assert (Hn : nrows (setitem name c df) = nrows df).
  { destruct df as [|[n c'] df']; [reflexivity|]. cbn [setitem].
    destruct (n =? name)%string; [exact Hc | reflexivity]. }
  split; [|exact Hn]. rewrite Hn. clear Hn.
  remember (nrows df) as k eqn:Ek. clear Ek.
  induction WF as [|[n c'] df' Hn Hdf' IH]; [constructor|]. cbn [setitem].
  destruct (n =? name)%string; constructor; assumption.
Qed.

Lemma getitem_length name df c :
  frame_wf df -> getitem name df = Ok c -> column_length c = nrows df.
Proof.
  intros WF H. apply getitem_In in H. unfold frame_wf in WF.
  rewrite List.Forall_forall in WF. exact (WF _ H).
Qed.

(** Every frame that load_data returns is well formed. *)
Lemma load_data_wf w df w' : Reporter.load_data w = (Ok (Some df), w') -> frame_wf df.
Proof.
  unfold Reporter.load_data, try_except, mbind, read_file, lift.
  destruct (fs w !! processed_csv) as [text|]; [|intros H; discriminate H].
  destruct (read_csv text) as [df0|e0] eqn:Eread;
    [|destruct e0; intros H; discriminate H].
  pose proof (read_csv_wf _ _ Eread) as WF0.
  destruct (getitem "date" df0) as [c1|e1] eqn:G1; cbn [bind];
    [|destruct e1; intros H; discriminate H].
  destruct (to_datetime c1) as [d1|e1] eqn:T1; [|destruct e1; intros H; discriminate H].
  assert (L1 : column_length d1 = nrows df0).
  { rewrite (to_datetime_length _ _ T1). now apply getitem_length with "date"%string. }
  destruct (setitem_wf "date" d1 df0 WF0 L1) as [WF1 N1].
  destruct (getitem "datetime" (setitem "date" d1 df0)) as [c2|e2] eqn:G2; cbn [bind];
    [|destruct e2; intros H; discriminate H].
  destruct (to_datetime c2) as [d2|e2] eqn:T2; [|destruct e2; intros H; discriminate H].
  assert (L2 : column_length d2 = nrows (setitem "date" d1 df0)).
  { rewrite (to_datetime_length _ _ T2). now apply getitem_length with "datetime"%string. }
  intros H. unfold ret in H. inversion H; subst.
  now apply setitem_wf.
Qed.

(** ** A successful collector run *)

Lemma mbind_inv {A B} (m : M A) (k : A -> M B) w b w' :
  mbind m k w = (Ok b, w') ->
  exists a w1, m w = (Ok a, w1) /\ k a w1 = (Ok b, w').
Proof.
  unfold mbind. destruct (m w) as [[a|e] w1]; intros H; [|discriminate H]. now exists a, w1.
Qed.

Lemma lift_inv {A} (r : result A) w a w' : lift r w = (Ok a, w') -> r = Ok a /\ w' = w.
Proof. unfold lift. intros H. inversion H. now split. Qed.

(** When main returns 0 the processed CSV and the descriptor on disk
    describe the same rows. *)
Lemma main_success (json_dumps : json -> string) (w w' : world) :
  Collector.main json_dumps w = (Ok 0, w') ->
  exists historical_data rows,
    process_payload historical_data = Ok rows /\ rows <> [] /\
    fs w' !! processed_csv = Some (to_csv rows) /\
    fs w' !! descriptor_path =
      Some (json_dumps (datapackage (isoformat (clock w')) (Z.of_nat (length rows) * 100))).
Proof.
  unfold Collector.main, try_except.
  match goal with |- context [match ?body w with _ => _ end] =>
    destruct (body w) as [[code|e] w0] eqn:Hbody end;
    [|unfold ret; intros H; discriminate H].
  intros H. inversion H; subst code w0; clear H.
  apply mbind_inv in Hbody as (current_data & w1 & _ & Hbody).
  apply mbind_inv in Hbody as (usd & w2 & _ & Hbody).
  apply mbind_inv in Hbody as ([] & w3 & _ & Hbody).
  apply mbind_inv in Hbody as (historical_data & w4 & _ & Hbody).
  apply mbind_inv in Hbody as ([] & w5 & _ & Hbody).
  apply mbind_inv in Hbody as (rows & w6 & Hrows & Hbody).
  apply lift_inv in Hrows as [Hrows ->].
  apply mbind_inv in Hbody as (csv_file & w7 & Hsave & Hbody).
  rewrite save_processed_data_spec in Hsave. inversion Hsave; subst csv_file w7; clear Hsave.
  apply mbind_inv in Hbody as ([] & w8 & Hpkg & Hbody).
  apply mbind_inv in Hbody as (last_row & w9 & Hlast & Hbody).
  apply lift_inv in Hlast as [Hlast ->].
  apply mbind_inv in Hbody as (first_row & w10 & Hfirst & Hbody).
  apply lift_inv in Hfirst as [Hfirst ->].
  unfold ret in Hbody. inversion Hbody; subst w'; clear Hbody.
  destruct (create_datapackage_saved json_dumps rows w5)
    as (w2' & Hpkg' & Hdesc & Hother & _ & Hclock).
  rewrite Hpkg in Hpkg'. inversion Hpkg'; subst w2'; clear Hpkg'.
  exists historical_data, rows. split; [exact Hrows|]. split.
  - intros ->. discriminate Hfirst.
  - split; [|exact Hdesc].
    rewrite Hother by discriminate. unfold saved. cbn [fs]. apply lookup_insert_eq.
Qed.

(** * Further properties *)

(** * Further properties *)

(** ** process_historical_data: multiplicity and failure *)

Lemma flat_map_repeat (c : Z -> nat) t n :
  flat_map (fun t' => repeat t' (c t')) (repeat t n) = repeat t (n * c t).
Proof.
  induction n as [|n IH]; [reflexivity|]. cbn [repeat flat_map Nat.mul].
  rewrite IH. symmetry. apply repeat_app.
Qed.

Lemma flat_map_flat_map {A B C} (f : A -> list B) (g : B -> list C) l :
  flat_map g (flat_map f l) = flat_map (fun a => flat_map g (f a)) l.
Proof.
  induction l as [|a l IH]; [reflexivity|]. cbn [flat_map].
  now rewrite flat_map_app, IH.
Qed.

Lemma merged_timestamps raw :
  timestamps (merged raw) =
  flat_map (fun t => repeat t (matches t (market_caps raw) * matches t (total_volumes raw)))
           (timestamps (prices raw)).
Proof.
  unfold merged. rewrite merge_timestamps, merge_timestamps, flat_map_flat_map.
  apply flat_map_ext. intros t.
  exact (flat_map_repeat (fun t' => matches t' (total_volumes raw)) t
           (matches t (market_caps raw))).
Qed.

(** X1: whenever normalize returns, its rows follow the price array: each
    price entry at timestamp t yields as many consecutive rows as there are
    market-cap entries at t times volume entries at t. *)
Theorem X1_row_multiplicity raw rows :
  process_historical_data raw = Ok rows ->
  map datetime rows =
  flat_map (fun t => repeat t (matches t (market_caps raw) * matches t (total_volumes raw)))
           (timestamps (prices raw)).
Proof.
  intros H. apply process_inv in H as [-> _].
  rewrite datetime_row_of. apply merged_timestamps.
Qed.

(** X1 on the response that lists one price timestamp twice. *)
Lemma X1_row_multiplicity_witness :
  exists rows, process_historical_data duplicated_price = Ok rows /\
               map datetime rows = [0; 0].
Proof.
  eexists. split; [reflexivity|].
  exact (X1_row_multiplicity duplicated_price _ eq_refl).
Defined.






(** ** Rounding keeps order *)





(** ** Summary statistics: failure and bounds *)

Lemma getitem_missing name df :
  (forall c, ~ In (name, c) df) -> getitem name df = Raise (KeyError name).
Proof.
  induction df as [|[n c] df IH]; intros H; [reflexivity|]. cbn [getitem].
  destruct (String.eqb_spec n name) as [->|_].
  - exfalso. apply (H c). now left.
  - apply IH. intros c' Hc'. apply (H c'). now right.
Qed.

(** X4: create_summary_stats returns statistics exactly for a frame with
    at least one row whose price column exists and holds numbers.  Without
    rows it raises IndexError, without the column KeyError, and on a price
    column of text TypeError. *)
Theorem X4_stats_outcome df :
  ((exists stats, create_summary_stats df = Ok stats) <->
   nrows df <> 0%nat /\
   exists column xs, getitem "price" df = Ok column /\ numbers column = Ok xs) /\
  (nrows df = 0%nat -> create_summary_stats df = Raise IndexError) /\
  (nrows df <> 0%nat -> forall e, getitem "price" df = Raise e ->
   create_summary_stats df = Raise e) /\
  (nrows df <> 0%nat -> forall cells, getitem "price" df = Ok (ObjCol cells) ->
   create_summary_stats df = Raise TypeError).
Proof.
  unfold create_summary_stats, price_aggregates.
  destruct (Nat.eqb_spec (nrows df) 0) as [E|E].
  - split; [|split; [reflexivity | split; intros; contradiction]]. split.
    + intros (stats & H). discriminate H.
    + intros [H _]. contradiction.
  - split; [|split; [intros; contradiction | split]].
    + split.
      * intros (stats & H). split; [assumption|].
        destruct (getitem "price" df) as [c|e]; [|discriminate H]. cbn [bind] in H.
        destruct (numbers c) as [xs|e] eqn:N; [|discriminate H]. now exists c, xs.
      * intros (_ & c & xs & -> & Hx). cbn [bind]. rewrite Hx. cbn [bind]. eauto.
    + intros _ e ->. reflexivity.
    + intros _ cells ->. reflexivity.
Qed.

(** X4 on a frame that lacks the price column. *)
Lemma X4_stats_outcome_witness :
  create_summary_stats [("date", TimeCol [0]); ("volume", IntCol [5])]%string =
  Raise (KeyError "price").
Proof.
  destruct (X4_stats_outcome [("date", TimeCol [0]); ("volume", IntCol [5])]%string)
    as (_ & _ & H & _).
  apply H; [discriminate | reflexivity].
Defined.





(** ** The collector's run *)

Lemma save_raw_data_spec json_dumps current_data historical_data w :
  Collector.save_raw_data json_dumps current_data historical_data w =
  (Ok tt, raw_saved json_dumps current_data historical_data w).
Proof. reflexivity. Qed.

Lemma requests_get_frame url params w :
  let w' := snd (requests_get url params w) in
  fs w' = fs w /\ dirs w' = dirs w /\ clock w' = clock w /\
  sent w' = Request url params :: sent w.
Proof. unfold requests_get. destruct (replies w); cbn; auto. Qed.

Lemma collect_current_price_frame w :
  let w' := snd (collect_current_price w) in
  fs w' = fs w /\ dirs w' = dirs w /\ clock w' = clock w /\
  exists req, sent w' = req :: sent w.
Proof.
  unfold collect_current_price, mbind.
  match goal with |- context [requests_get ?u ?p w] =>
    pose proof (requests_get_frame u p w) as F;
    destruct (requests_get u p w) as [[r|e] w1] end;
    cbn [snd] in *; destruct F as (F1 & F2 & F3 & F4).
  - destruct (status_code r =? 200).
    + unfold lift. destruct (response_json r) as [[coins|raw]|e]; cbn [snd]; eauto 10.
    + cbn [snd raise]. eauto 10.
  - eauto 10.
Qed.

Lemma collect_historical_prices_frame days w :
  let w' := snd (collect_historical_prices days w) in
  fs w' = fs w /\ dirs w' = dirs w /\ clock w' = clock w /\
  exists req, sent w' = req :: sent w.
Proof.
  unfold collect_historical_prices, mbind.
  match goal with |- context [requests_get ?u ?p w] =>
    pose proof (requests_get_frame u p w) as F;
    destruct (requests_get u p w) as [[r|e] w1] end;
    cbn [snd] in *; destruct F as (F1 & F2 & F3 & F4).
  - destruct (status_code r =? 200); cbn [snd lift raise]; eauto 10.
  - eauto 10.
Qed.

Lemma iloc_last_cons {A} (r : A) l : exists r', iloc_last (r :: l) = Ok r'.
Proof.
  unfold iloc_last. destruct (rev (r :: l)) as [|r' l'] eqn:E; [|eauto].
  apply (f_equal (@length A)) in E. rewrite length_rev in E. discriminate E.
Qed.

(** What main does once both fetches have succeeded. *)
Lemma run_after_fetch json_dumps w q p w1 historical_data w2 :
  collect_current_price w = (Ok q, w1) -> dict_get "usd" q = Ok p ->
  collect_historical_prices 365 (snd (sleep 1 w1)) = (Ok historical_data, w2) ->
  let w3 := raw_saved json_dumps q historical_data w2 in
  Collector.main json_dumps w =
  match process_payload historical_data with
  | Raise _ => (Ok 1, w3)
  | Ok rows =>
      (Ok (match rows with [] => 1 | _ => 0 end),
       snd (Collector.create_datapackage json_dumps processed_csv (saved rows w3)))
  end.
Proof.
  intros H1 Hp H2 w3. unfold Collector.main, try_except, mbind.
  rewrite H1. unfold lift at 1. rewrite Hp. cbn [sleep snd] in *. rewrite H2.
  rewrite save_raw_data_spec. fold w3. unfold lift at 1.
  destruct (process_payload historical_data) as [rows|e]; [|reflexivity].
  rewrite save_processed_data_spec.
  destruct (create_datapackage_saved json_dumps rows w3) as (w4 & -> & _).
  cbn [snd]. unfold lift. destruct rows as [|r rows]; [reflexivity|].
  destruct (iloc_last_cons r rows) as (r' & ->). reflexivity.
Qed.

(** X6: the collector's main never lets an exception out: in every world
    it returns 0 or 1. *)
Theorem X6_collector_exit_code (json_dumps : json -> string) (w : world) :
  exists code w', Collector.main json_dumps w = (Ok code, w') /\ (code = 0 \/ code = 1).
Proof.
  unfold Collector.main, try_except.
  match goal with |- context [match ?body w with _ => _ end] =>
    destruct (body w) as [[code|e] w0] eqn:Hbody end.
  2:{ exists 1, w0. split; [reflexivity | now right]. }
  exists code, w0. split; [reflexivity|]. left.
  repeat (apply mbind_inv in Hbody as (? & ? & _ & Hbody)).
  unfold ret in Hbody. now inversion Hbody.
Qed.




Lemma main_aborts_on_usd (json_dumps : json -> string) w q e w1 :
  collect_current_price w = (Ok q, w1) -> dict_get "usd" q = Raise e ->
  Collector.main json_dumps w = (Ok 1, w1).
Proof.
  intros H Hq. unfold Collector.main, try_except, mbind. rewrite H. unfold lift.
  now rewrite Hq.
Qed.

(** X8: when the run fails before the history has arrived (the first
    fetch raises, the quote has no usd entry, or the second fetch raises),
    main returns 1 and has written no file and made no directory; a quote
    without usd ends the run after the first request. *)
Theorem X8_fetch_failure_writes_nothing (json_dumps : json -> string) (w : world) :
  (forall e w1, collect_current_price w = (Raise e, w1) ->
     Collector.main json_dumps w = (Ok 1, w1) /\ fs w1 = fs w /\ dirs w1 = dirs w) /\
  (forall q e w1, collect_current_price w = (Ok q, w1) -> dict_get "usd" q = Raise e ->
     Collector.main json_dumps w = (Ok 1, w1) /\ fs w1 = fs w /\ dirs w1 = dirs w /\
     exists req, sent w1 = req :: sent w) /\
  (forall q p w1 e w2,
     collect_current_price w = (Ok q, w1) -> dict_get "usd" q = Ok p ->
     collect_historical_prices 365 (snd (sleep 1 w1)) = (Raise e, w2) ->
     Collector.main json_dumps w = (Ok 1, w2) /\ fs w2 = fs w /\ dirs w2 = dirs w).
Proof.
  pose proof (collect_current_price_frame w) as F. cbn zeta in F.
  split; [|split].
  - intros e w1 H. rewrite H in F. cbn [snd] in F. destruct F as (F1 & F2 & _).
    split; [now apply main_aborts_on_current with e | now split].
  - intros q e w1 H Hq. rewrite H in F. cbn [snd] in F. destruct F as (F1 & F2 & _ & F4).
    split; [now apply main_aborts_on_usd with q e | now repeat split].
  - intros q p w1 e w2 H Hq H2. rewrite H in F. cbn [snd] in F. destruct F as (F1 & F2 & _).
    pose proof (collect_historical_prices_frame 365 (snd (sleep 1 w1))) as G.
    cbn zeta in G. rewrite H2 in G. cbn [snd sleep fs dirs] in G. destruct G as (G1 & G2 & _).
    split; [now apply main_aborts_on_historical with q p w1 e|].
    split; congruence.
Qed.

(** X8 when the network gives no reply at all. *)
Lemma X8_fetch_failure_writes_nothing_witness :
  exists w1, Collector.main (fun _ => ""%string) empty_world = (Ok 1, w1) /\
             fs w1 = fs empty_world.
Proof.
  destruct (X8_fetch_failure_writes_nothing (fun _ => ""%string) empty_world) as (H & _).
  destruct (H ConnectionError _ eq_refl) as (E & F & _). eauto.
Defined.



(** X10: when both fetches succeed and normalize returns no row, main
    writes a CSV that holds the header alone and a descriptor that records
    0 bytes, and then returns 1: the message about the latest price finds
    no row. *)
Theorem X10_empty_result_run (json_dumps : json -> string)
    (w : world) q p w1 historical_data w2 :
  collect_current_price w = (Ok q, w1) -> dict_get "usd" q = Ok p ->
  collect_historical_prices 365 (snd (sleep 1 w1)) = (Ok historical_data, w2) ->
  process_payload historical_data = Ok [] ->
  exists w4,
    Collector.main json_dumps w = (Ok 1, w4) /\
    fs w4 !! processed_csv = Some (to_csv []) /\
    fs w4 !! descriptor_path =
      Some (json_dumps (datapackage (isoformat (clock w + 1)) 0)).
Proof.
  intros H1 Hp H2 He.
  pose proof (run_after_fetch json_dumps w q p w1 historical_data w2 H1 Hp H2) as R.
  cbn zeta in R. rewrite He in R. eexists. split; [exact R|].
  destruct (create_datapackage_saved json_dumps [] (raw_saved json_dumps q historical_data w2))
    as (w4 & -> & Hd & Hother & _ & Hc).
  cbn [snd].
  pose proof (collect_current_price_frame w) as F. cbn zeta in F. rewrite H1 in F.
  cbn [snd] in F. destruct F as (_ & _ & F3 & _).
  pose proof (collect_historical_prices_frame 365 (snd (sleep 1 w1))) as G.
  cbn zeta in G. rewrite H2 in G. cbn [snd sleep fs dirs clock] in G.
  destruct G as (_ & _ & G3 & _).
  split.
  - rewrite Hother by discriminate. unfold saved. cbn [fs]. apply lookup_insert_eq.
  - rewrite Hd, Hc. cbn [raw_saved clock length Z.of_nat Z.mul]. do 3 f_equal. congruence.
Qed.

(** X10 when the three arrays share no timestamp. *)
Lemma X10_empty_result_run_witness :
  exists w4, Collector.main (fun _ => ""%string) disjoint_days = (Ok 1, w4) /\
             fs w4 !! processed_csv = Some (to_csv []).
Proof.
  destruct (X10_empty_result_run (fun _ => ""%string) disjoint_days
              _ _ _ _ _ eq_refl eq_refl eq_refl eq_refl) as (w4 & E & C & _).
  exists w4. now split.
Defined.



(** ** The reporter's run *)







Lemma load_data_world w : snd (Reporter.load_data w) = w.
Proof.
  unfold Reporter.load_data, try_except, mbind, read_file, lift.
  destruct (fs w !! processed_csv) as [text|]; [|reflexivity].
  destruct (read_csv text) as [df|e0]; [|destruct e0; reflexivity].
  destruct (let* c := getitem "date" df in to_datetime c) as [d1|e1];
    [|destruct e1; reflexivity].
  destruct (let* c := getitem "datetime" (setitem "date" d1 df) in to_datetime c)
    as [d2|e2]; [|destruct e2; reflexivity].
  reflexivity.
Qed.

Section Report.
Variables to_json to_html : Figure -> string.

Lemma create_html_report_spec price_fig volume_fig stats w :
  Reporter.create_html_report to_json price_fig volume_fig stats w =
  (Ok (report_text to_json price_fig volume_fig stats (clock w)), w).
Proof. reflexivity. Qed.

(** What main does with a loaded frame. *)
Lemma main_loaded w df :
  Reporter.load_data w = (Ok (Some df), w) ->
  Reporter.main to_json to_html w =
  match create_simple_price_chart df with
  | Raise e => (Raise e, started w)
  | Ok price_fig =>
      match create_volume_chart df with
      | Raise e => (Raise e, started w)
      | Ok volume_fig =>
          match create_summary_stats df with
          | Raise e => (Raise e, started w)
          | Ok stats => (Ok 0, reported to_json to_html price_fig volume_fig stats w)
          end
      end
  end.
Proof.
  intros L. unfold Reporter.main, mbind. rewrite L. cbn [mkdir]. fold (started w).
  unfold lift. destruct (create_simple_price_chart df) as [pf|e]; [|reflexivity].
  destruct (create_volume_chart df) as [vf|e]; [|reflexivity].
  destruct (create_summary_stats df) as [stats|e]; [|reflexivity].
  cbn [write_file]. rewrite create_html_report_spec. reflexivity.
Qed.

(** The outcomes of main, by what load_data returns. *)
Lemma main_cases w :
  (exists e, Reporter.main to_json to_html w = (Raise e, w)) \/
  Reporter.main to_json to_html w = (Ok 1, w) \/
  (exists e, Reporter.main to_json to_html w = (Raise e, started w)) \/
  (exists df price_fig volume_fig stats,
     Reporter.load_data w = (Ok (Some df), w) /\
     create_simple_price_chart df = Ok price_fig /\
     create_volume_chart df = Ok volume_fig /\
     create_summary_stats df = Ok stats /\
     Reporter.main to_json to_html w =
       (Ok 0, reported to_json to_html price_fig volume_fig stats w)).
Proof.
  pose proof (load_data_world w) as Hw.
  destruct (Reporter.load_data w) as [[[df|]|e] w0] eqn:L; cbn [snd] in Hw; subst w0.
  - rewrite (main_loaded w df L).
    destruct (create_simple_price_chart df) as [pf|e] eqn:P; [|right; right; left; eauto].
    destruct (create_volume_chart df) as [vf|e] eqn:V; [|right; right; left; eauto].
    destruct (create_summary_stats df) as [stats|e] eqn:S; [|right; right; left; eauto].
    right; right; right. exists df, pf, vf, stats. repeat split; assumption || reflexivity.
  - right; left. unfold Reporter.main, mbind. now rewrite L.
  - left. exists e. unfold Reporter.main, mbind. now rewrite L.
Qed.

End Report.

Lemma reporter_paths_distinct :
  price_chart_path <> volume_chart_path /\ price_chart_path <> report_path /\
  volume_chart_path <> report_path /\ processed_csv <> price_chart_path /\
  processed_csv <> volume_chart_path /\ processed_csv <> report_path.
Proof. repeat split; discriminate. Qed.

(** X13: the reporter's main writes at most its three files: whatever the
    world and however the run ends, every other path, the processed CSV
    among them, holds what it held before. *)
Theorem X13_reporter_touches_only_its_files (to_json to_html : Figure -> string)
    (w : world) (path : string) :
  path <> price_chart_path -> path <> volume_chart_path -> path <> report_path ->
  fs (snd (Reporter.main to_json to_html w)) !! path = fs w !! path.
Proof.
  intros N1 N2 N3.
  destruct (main_cases to_json to_html w)
    as [(e & ->) | [-> | [(e & ->) | (df & pf & vf & st & _ & _ & _ & _ & ->)]]];
    cbn [snd started reported fs]; try reflexivity.
  now rewrite !lookup_insert_ne by congruence.
Qed.

(** X13 for the processed CSV in a world that holds one. *)
Lemma X13_reporter_touches_only_its_files_witness :
  fs (snd (Reporter.main (fun _ => ""%string) (fun _ => ""%string) two_days_saved))
    !! processed_csv = fs two_days_saved !! processed_csv.
Proof.
  apply X13_reporter_touches_only_its_files; discriminate.
Defined.

(** X14: when the reporter's main returns 0 the frame was loaded, both
    charts and the statistics were made, and the three files exist: each
    chart file holds the page of its figure and the report holds the text
    of create_html_report. *)
Theorem X14_reporter_success (to_json to_html : Figure -> string) (w w' : world) :
  Reporter.main to_json to_html w = (Ok 0, w') ->
  exists df price_fig volume_fig stats,
    Reporter.load_data w = (Ok (Some df), w) /\
    create_simple_price_chart df = Ok price_fig /\
    create_volume_chart df = Ok volume_fig /\
    create_summary_stats df = Ok stats /\
    fs w' !! price_chart_path = Some (to_html price_fig) /\
    fs w' !! volume_chart_path = Some (to_html volume_fig) /\
    fs w' !! report_path = Some (report_text to_json price_fig volume_fig stats (clock w)) /\
    dirs w' = {["visualizations"%string]} ∪ dirs w.
Proof.
  intros H.
  destruct (main_cases to_json to_html w)
    as [(e & E) | [E | [(e & E) | (df & pf & vf & st & L & P & V & S & E)]]];
    rewrite E in H; try discriminate H.
  inversion H; subst w'; clear H. exists df, pf, vf, st.
  destruct reporter_paths_distinct as (D1 & D2 & D3 & _).
  repeat split; try assumption; unfold reported; cbn [fs dirs].
  - rewrite !lookup_insert_ne by congruence. apply lookup_insert_eq.
  - rewrite lookup_insert_ne by congruence. apply lookup_insert_eq.
  - apply lookup_insert_eq.
Qed.

(** X14 in the world that holds the CSV of the two-day example. *)
Lemma X14_reporter_success_witness :
  fs (snd (Reporter.main (fun _ => ""%string) (fun _ => "page"%string) two_days_saved))
    !! price_chart_path = Some "page"%string.
Proof.
  assert (H : fst (Reporter.main (fun _ => ""%string) (fun _ => "page"%string) two_days_saved)
              = Ok 0) by (vm_compute; reflexivity).
  destruct (Reporter.main (fun _ => ""%string) (fun _ => "page"%string) two_days_saved)
    as [code w'] eqn:E.
  cbn [fst snd] in *. subst code.
  destruct (X14_reporter_success _ _ _ _ E) as (df & pf & vf & st & _ & _ & _ & _ & P & _).
  exact P.
Defined.

(** X15: the two pipelines compose: in a world where save_processed_data
    has written at least one row, the reporter's main returns 0 and writes
    its three files. *)
Theorem X15_report_after_collect (to_json to_html : Figure -> string)
    (rows : list row) (w : world) :
  rows <> [] ->
  exists w',
    Reporter.main to_json to_html (saved rows w) = (Ok 0, w') /\
    is_Some (fs w' !! price_chart_path) /\ is_Some (fs w' !! volume_chart_path) /\
    is_Some (fs w' !! report_path) /\
    fs w' !! processed_csv = Some (to_csv rows).
Proof.
  intros Hne.
  destruct (load_data_saved rows w) as (ts1 & ts2 & cp & L & Hlen & ys & Hcp & _).
  destruct rows as [|r rows]; [contradiction|]. subst cp.
  rewrite (main_loaded to_json to_html _ _ L).
  cbn [create_simple_price_chart create_volume_chart getitem String.eqb Ascii.eqb Bool.eqb bind].
  unfold create_summary_stats, price_aggregates. cbn [nrows column_length].
  rewrite Hlen. cbn [length Nat.eqb getitem String.eqb Ascii.eqb Bool.eqb bind numbers].
  eexists. split; [reflexivity|].
  destruct reporter_paths_distinct as (D1 & D2 & D3 & D4 & D5 & D6).
  unfold reported. cbn [fs]. repeat split.
  - rewrite !lookup_insert_ne by congruence. rewrite lookup_insert_eq. eauto.
  - rewrite lookup_insert_ne by congruence. rewrite lookup_insert_eq. eauto.
  - rewrite lookup_insert_eq. eauto.
  - rewrite !lookup_insert_ne by congruence. unfold saved. cbn [fs]. apply lookup_insert_eq.
Qed.

(** X15 for one row in the world without files. *)
Lemma X15_report_after_collect_witness :
  exists w',
    Reporter.main (fun _ => ""%string) (fun _ => ""%string)
      (saved [Row (Date 1970 1 1) 0 (Dec 10000 2) 1000 10] empty_world) = (Ok 0, w').
Proof.
  destruct (X15_report_after_collect (fun _ => ""%string) (fun _ => ""%string)
              [Row (Date 1970 1 1) 0 (Dec 10000 2) 1000 10] empty_world)
    as (w' & E & _); [discriminate | eauto].
Defined.

(** ** Charts *)



(** ** The report *)

Lemma fold_stats_concat (stats : list (string * string)) (h : string) :
  fold_left (fun html kv => html ++ html_stat (fst kv) (snd kv))%string stats h =
  (h ++ concat_strings (map (fun kv => html_stat (fst kv) (snd kv)) stats))%string.
Proof.
  revert h. induction stats as [|kv stats IH]; intros h; cbn [fold_left map concat_strings fold_right].
  - now rewrite append_nil_r.
  - rewrite IH. unfold concat_strings. now rewrite append_assoc.
Qed.

Lemma concat_strings_app l1 l2 :
  concat_strings (l1 ++ l2) = (concat_strings l1 ++ concat_strings l2)%string.
Proof.
  induction l1 as [|s l1 IH]; [reflexivity|]. unfold concat_strings in *.
  cbn [app fold_right]. now rewrite IH, append_assoc.
Qed.

(** X17: create_html_report always returns, changing nothing; its text
    begins with the head that carries the time, ends with the script that
    embeds both figures, and between them holds one box for each statistic,
    in the order of the statistics. *)
Theorem X17_report_text (to_json : Figure -> string) (price_fig volume_fig : Figure)
    (stats : list (string * string)) (w : world) :
  exists html,
    Reporter.create_html_report to_json price_fig volume_fig stats w = (Ok html, w) /\
    html = (html_head (strftime_minutes (clock w)) ++
            concat_strings (map (fun kv => html_stat (fst kv) (snd kv)) stats) ++
            html_charts ++ html_script (to_json price_fig) (to_json volume_fig))%string /\
    (forall label value, In (label, value) stats ->
       exists before after, html = (before ++ html_stat label value ++ after)%string).
Proof.
  eexists. split; [apply create_html_report_spec|].
  assert (E : report_text to_json price_fig volume_fig stats (clock w) =
              (html_head (strftime_minutes (clock w)) ++
               concat_strings (map (fun kv => html_stat (fst kv) (snd kv)) stats) ++
               html_charts ++ html_script (to_json price_fig) (to_json volume_fig))%string).
  { unfold report_text. now rewrite fold_stats_concat, !append_assoc. }
  split; [exact E|]. intros label value Hin. rewrite E.
  apply in_split in Hin as (l1 & l2 & ->).
  rewrite map_app, concat_strings_app. cbn [map fst snd].
  exists (html_head (strftime_minutes (clock w)) ++
          concat_strings (map (fun kv => html_stat (fst kv) (snd kv)) l1))%string.
  eexists. unfold concat_strings at 2. cbn [fold_right].
  rewrite !append_assoc. reflexivity.
Qed.

(** X17 for one statistic. *)
Lemma X17_report_text_witness :
  exists before after,
    fst (Reporter.create_html_report (fun _ => ""%string)
           (MkFigure Bar (IntCol []) (IntCol []) "" "" "" "" "" "" 0 false)
           (MkFigure Bar (IntCol []) (IntCol []) "" "" "" "" "" "" 0 false)
           [("Year High", "$5.00")]%string empty_world) =
    Ok (before ++ html_stat "Year High" "$5.00" ++ after)%string.
Proof.
  destruct (X17_report_text (fun _ => ""%string)
              (MkFigure Bar (IntCol []) (IntCol []) "" "" "" "" "" "" 0 false)
              (MkFigure Bar (IntCol []) (IntCol []) "" "" "" "" "" "" 0 false)
              [("Year High", "$5.00")]%string empty_world) as (html & E & _ & H).
  destruct (H "Year High"%string "$5.00"%string) as (b & a & Eh); [now left|].
  exists b, a. rewrite E. cbn [fst]. now rewrite Eh.
Defined.

(** ** Frames and files *)

(** X18: every frame that load_data returns is well formed: all its
    columns have the length that the frame reports as its number of rows. *)
Theorem X18_loaded_frame_well_formed (w w' : world) (df : frame) :
  Reporter.load_data w = (Ok (Some df), w') ->
  Forall (fun nc => column_length (snd nc) = nrows df) df.
Proof. intros H. exact (load_data_wf w df w' H). Qed.

(** X18 in the world that holds the CSV of the two-day example. *)
Lemma X18_loaded_frame_well_formed_witness :
  exists df, fst (Reporter.load_data two_days_saved) = Ok (Some df) /\ nrows df = 2%nat /\
             Forall (fun nc => column_length (snd nc) = nrows df) df.
Proof.
  assert (H : exists df, fst (Reporter.load_data two_days_saved) = Ok (Some df) /\
                         nrows df = 2%nat)
    by (vm_compute; eexists; split; reflexivity).
  destruct H as (df & E & N). exists df. split; [exact E|]. split; [exact N|].
  apply (X18_loaded_frame_well_formed two_days_saved
           (snd (Reporter.load_data two_days_saved)) df).
  rewrite <- E. apply surjective_pairing.
Defined.

Lemma to_csv_lines (df : list row) :
  split_on nl (to_csv df) =
  (join "," csv_header ::
   map (fun r => join "," (csv_record (column_format (map datetime df)) r)) df) ++ [""%string].
Proof.
  unfold to_csv. rewrite split_on_unlines; [reflexivity|].
  constructor; [reflexivity|]. apply List.Forall_forall. intros l Hl.
  apply in_map_iff in Hl as (r & <- & _). apply csv_line_safe.
Qed.

(** X19: the text that to_csv writes has one line for the header, which
    names the five columns, and one line for each row; every line holds
    five fields separated by commas and no line is blank. *)
Theorem X19_csv_lines (df : list row) :
  exists records,
    split_on nl (to_csv df) = ("date,datetime,price,market_cap,volume"%string :: records)
                              ++ [""%string] /\
    length records = length df /\
    Forall (fun l => l <> ""%string /\ length (split_on "," l) = 5%nat) records.
Proof.
  set (fmt := column_format (map datetime df)).
  exists (map (fun r => join "," (csv_record fmt r)) df).
  split; [|split].
  - apply to_csv_lines.
  - apply length_map.
  - apply List.Forall_forall. intros l Hl. apply in_map_iff in Hl as (r & <- & _).
    destruct (csv_line_safe fmt r) as (_ & Hne & Hsplit). split; [exact Hne|].
    now rewrite Hsplit.
Qed.

(** X20: the descriptor that create_datapackage builds has one resource;
    its path is the path of the processed CSV, its schema names the
    columns of the CSV in the order of the header that to_csv writes, and
    its size is the number it was given. *)
Theorem X20_descriptor_matches_csv (created : string) (bytes : Z) (df : list row) :
  exists resource records,
    descriptor_resources (datapackage created bytes) = [resource] /\
    json_member "path" resource = Some (JsString processed_csv) /\
    json_member "bytes" resource = Some (JsNumber (dec_of_Z bytes)) /\
    schema_field_names resource = Some (map JsString csv_header) /\
    split_on nl (to_csv df) = (join "," csv_header :: records) ++ [""%string].
Proof.
  eexists. eexists. repeat split. apply to_csv_lines.
Qed.
